(** * The schedalessa cpufreq governor (kernel/sched/cpufreq_schedalessa.c)

    A shallow embedding of the governor's frequency-selection core: the
    rate limiter, the io-wait booster, the busy classifier, the frequency
    selector, the single- and shared-policy update paths and the two
    rate-limit sysfs store handlers, followed by the properties checked
    against them.

    C integers are modelled as [Z] with the wrap-around of each operation
    written out: [unsigned int] is 32 bits, [unsigned long], [u64] and
    [size_t] are 64 bits (the LP64 data model of the arm64 target), [s64]
    and [ssize_t] are 64-bit two's complement. *)

From Stdlib Require Import ZArith List Bool Lia Ascii String.
Import ListNotations.
Local Open Scope Z_scope.

(** ** Machine integers *)

Definition u32 (x : Z) : Z := x mod 2 ^ 32.
Definition u64 (x : Z) : Z := x mod 2 ^ 64.
Definition s64 (x : Z) : Z := (x + 2 ^ 63) mod 2 ^ 64 - 2 ^ 63.
Definition UINT_MAX : Z := 2 ^ 32 - 1.

(** [flags & bit] used as a C truth value. *)
Definition flag_set (flags bit : Z) : bool := negb (Z.land flags bit =? 0).

(** ** Data model *)

(** The part of [struct cpufreq_policy] the governor reads. *)
Record cpufreq_policy := {
  policy_cpu : nat;
  policy_cpus : list nat;          (* policy->cpus, in for_each_cpu order *)
  policy_min : Z;
  policy_max : Z;
  policy_cur : Z;
  cpuinfo_max_freq : Z;            (* policy->cpuinfo.max_freq *)
  fast_switch_enabled : bool
}.

Record algov_tunables := {
  up_rate_limit_us : Z;
  down_rate_limit_us : Z;
  iowait_boost_enable : bool
}.

(** Handle of an energy-model performance domain. *)
Inductive em_perf_domain := perf_domain (id : nat).

Record algov_policy := {
  policy : cpufreq_policy;
  last_freq_update_time : Z;       (* u64 *)
  min_rate_limit_ns : Z;           (* s64 *)
  up_rate_delay_ns : Z;            (* s64 *)
  down_rate_delay_ns : Z;          (* s64 *)
  next_freq : Z;                   (* unsigned int *)
  cached_raw_freq : Z;             (* unsigned int *)
  work_in_progress : bool;
  need_freq_update : bool;
  pd : option em_perf_domain
}.

Record algov_cpu := {
  iowait_boost_pending : bool;
  iowait_boost : Z;                (* unsigned int *)
  iowait_boost_max : Z;            (* unsigned int *)
  last_update : Z;                 (* u64 *)
  util : Z;                        (* unsigned long *)
  max : Z;                         (* unsigned long *)
  flags : Z;                       (* unsigned int *)
  cpu : nat;
  saved_idle_calls : Z;            (* unsigned long *)
  previous_util : Z                (* unsigned long *)
}.

(** Field assignments. *)

Definition set_policy_cur (v : Z) (p : cpufreq_policy) : cpufreq_policy :=
  {| policy_cpu := policy_cpu p; policy_cpus := policy_cpus p;
     policy_min := policy_min p; policy_max := policy_max p;
     policy_cur := v; cpuinfo_max_freq := cpuinfo_max_freq p;
     fast_switch_enabled := fast_switch_enabled p |}.

Definition set_up_rate_limit_us (v : Z) (t : algov_tunables) : algov_tunables :=
  {| up_rate_limit_us := v; down_rate_limit_us := down_rate_limit_us t;
     iowait_boost_enable := iowait_boost_enable t |}.

Definition set_down_rate_limit_us (v : Z) (t : algov_tunables) : algov_tunables :=
  {| up_rate_limit_us := up_rate_limit_us t; down_rate_limit_us := v;
     iowait_boost_enable := iowait_boost_enable t |}.

Definition set_policy (v : cpufreq_policy) (s : algov_policy) : algov_policy :=
  {| policy := v; last_freq_update_time := last_freq_update_time s;
     min_rate_limit_ns := min_rate_limit_ns s;
     up_rate_delay_ns := up_rate_delay_ns s;
     down_rate_delay_ns := down_rate_delay_ns s;
     next_freq := next_freq s; cached_raw_freq := cached_raw_freq s;
     work_in_progress := work_in_progress s;
     need_freq_update := need_freq_update s; pd := pd s |}.

Definition set_last_freq_update_time (v : Z) (s : algov_policy) : algov_policy :=
  {| policy := policy s; last_freq_update_time := v;
     min_rate_limit_ns := min_rate_limit_ns s;
     up_rate_delay_ns := up_rate_delay_ns s;
     down_rate_delay_ns := down_rate_delay_ns s;
     next_freq := next_freq s; cached_raw_freq := cached_raw_freq s;
     work_in_progress := work_in_progress s;
     need_freq_update := need_freq_update s; pd := pd s |}.

Definition set_min_rate_limit_ns (v : Z) (s : algov_policy) : algov_policy :=
  {| policy := policy s; last_freq_update_time := last_freq_update_time s;
     min_rate_limit_ns := v;
     up_rate_delay_ns := up_rate_delay_ns s;
     down_rate_delay_ns := down_rate_delay_ns s;
     next_freq := next_freq s; cached_raw_freq := cached_raw_freq s;
     work_in_progress := work_in_progress s;
     need_freq_update := need_freq_update s; pd := pd s |}.

Definition set_up_rate_delay_ns (v : Z) (s : algov_policy) : algov_policy :=
  {| policy := policy s; last_freq_update_time := last_freq_update_time s;
     min_rate_limit_ns := min_rate_limit_ns s;
     up_rate_delay_ns := v;
     down_rate_delay_ns := down_rate_delay_ns s;
     next_freq := next_freq s; cached_raw_freq := cached_raw_freq s;
     work_in_progress := work_in_progress s;
     need_freq_update := need_freq_update s; pd := pd s |}.

Definition set_down_rate_delay_ns (v : Z) (s : algov_policy) : algov_policy :=
  {| policy := policy s; last_freq_update_time := last_freq_update_time s;
     min_rate_limit_ns := min_rate_limit_ns s;
     up_rate_delay_ns := up_rate_delay_ns s;
     down_rate_delay_ns := v;
     next_freq := next_freq s; cached_raw_freq := cached_raw_freq s;
     work_in_progress := work_in_progress s;
     need_freq_update := need_freq_update s; pd := pd s |}.

Definition set_next_freq (v : Z) (s : algov_policy) : algov_policy :=
  {| policy := policy s; last_freq_update_time := last_freq_update_time s;
     min_rate_limit_ns := min_rate_limit_ns s;
     up_rate_delay_ns := up_rate_delay_ns s;
     down_rate_delay_ns := down_rate_delay_ns s;
     next_freq := v; cached_raw_freq := cached_raw_freq s;
     work_in_progress := work_in_progress s;
     need_freq_update := need_freq_update s; pd := pd s |}.

Definition set_cached_raw_freq (v : Z) (s : algov_policy) : algov_policy :=
  {| policy := policy s; last_freq_update_time := last_freq_update_time s;
     min_rate_limit_ns := min_rate_limit_ns s;
     up_rate_delay_ns := up_rate_delay_ns s;
     down_rate_delay_ns := down_rate_delay_ns s;
     next_freq := next_freq s; cached_raw_freq := v;
     work_in_progress := work_in_progress s;
     need_freq_update := need_freq_update s; pd := pd s |}.

Definition set_work_in_progress (v : bool) (s : algov_policy) : algov_policy :=
  {| policy := policy s; last_freq_update_time := last_freq_update_time s;
     min_rate_limit_ns := min_rate_limit_ns s;
     up_rate_delay_ns := up_rate_delay_ns s;
     down_rate_delay_ns := down_rate_delay_ns s;
     next_freq := next_freq s; cached_raw_freq := cached_raw_freq s;
     work_in_progress := v;
     need_freq_update := need_freq_update s; pd := pd s |}.

Definition set_need_freq_update (v : bool) (s : algov_policy) : algov_policy :=
  {| policy := policy s; last_freq_update_time := last_freq_update_time s;
     min_rate_limit_ns := min_rate_limit_ns s;
     up_rate_delay_ns := up_rate_delay_ns s;
     down_rate_delay_ns := down_rate_delay_ns s;
     next_freq := next_freq s; cached_raw_freq := cached_raw_freq s;
     work_in_progress := work_in_progress s;
     need_freq_update := v; pd := pd s |}.

Definition set_iowait_boost_pending (v : bool) (c : algov_cpu) : algov_cpu :=
  {| iowait_boost_pending := v; iowait_boost := iowait_boost c;
     iowait_boost_max := iowait_boost_max c; last_update := last_update c;
     util := util c; max := max c; flags := flags c; cpu := cpu c;
     saved_idle_calls := saved_idle_calls c;
     previous_util := previous_util c |}.

Definition set_iowait_boost (v : Z) (c : algov_cpu) : algov_cpu :=
  {| iowait_boost_pending := iowait_boost_pending c; iowait_boost := v;
     iowait_boost_max := iowait_boost_max c; last_update := last_update c;
     util := util c; max := max c; flags := flags c; cpu := cpu c;
     saved_idle_calls := saved_idle_calls c;
     previous_util := previous_util c |}.

Definition set_last_update (v : Z) (c : algov_cpu) : algov_cpu :=
  {| iowait_boost_pending := iowait_boost_pending c;
     iowait_boost := iowait_boost c;
     iowait_boost_max := iowait_boost_max c; last_update := v;
     util := util c; max := max c; flags := flags c; cpu := cpu c;
     saved_idle_calls := saved_idle_calls c;
     previous_util := previous_util c |}.

Definition set_util (v : Z) (c : algov_cpu) : algov_cpu :=
  {| iowait_boost_pending := iowait_boost_pending c;
     iowait_boost := iowait_boost c;
     iowait_boost_max := iowait_boost_max c; last_update := last_update c;
     util := v; max := max c; flags := flags c; cpu := cpu c;
     saved_idle_calls := saved_idle_calls c;
     previous_util := previous_util c |}.

Definition set_max (v : Z) (c : algov_cpu) : algov_cpu :=
  {| iowait_boost_pending := iowait_boost_pending c;
     iowait_boost := iowait_boost c;
     iowait_boost_max := iowait_boost_max c; last_update := last_update c;
     util := util c; max := v; flags := flags c; cpu := cpu c;
     saved_idle_calls := saved_idle_calls c;
     previous_util := previous_util c |}.

Definition set_flags (v : Z) (c : algov_cpu) : algov_cpu :=
  {| iowait_boost_pending := iowait_boost_pending c;
     iowait_boost := iowait_boost c;
     iowait_boost_max := iowait_boost_max c; last_update := last_update c;
     util := util c; max := max c; flags := v; cpu := cpu c;
     saved_idle_calls := saved_idle_calls c;
     previous_util := previous_util c |}.

Definition set_saved_idle_calls (v : Z) (c : algov_cpu) : algov_cpu :=
  {| iowait_boost_pending := iowait_boost_pending c;
     iowait_boost := iowait_boost c;
     iowait_boost_max := iowait_boost_max c; last_update := last_update c;
     util := util c; max := max c; flags := flags c; cpu := cpu c;
     saved_idle_calls := v;
     previous_util := previous_util c |}.

Definition set_previous_util (v : Z) (c : algov_cpu) : algov_cpu :=
  {| iowait_boost_pending := iowait_boost_pending c;
     iowait_boost := iowait_boost c;
     iowait_boost_max := iowait_boost_max c; last_update := last_update c;
     util := util c; max := max c; flags := flags c; cpu := cpu c;
     saved_idle_calls := saved_idle_calls c;
     previous_util := v |}.

(** The per-CPU array [algov_cpu] ([DEFINE_PER_CPU]), indexed by CPU number. *)
Definition per_cpu_store := nat -> algov_cpu.

Definition per_cpu_set (st : per_cpu_store) (j : nat) (c : algov_cpu)
  : per_cpu_store :=
  fun k => if Nat.eqb k j then c else st k.

(** The run queue fields [algov_get_util] reads. *)
Record rq := {
  age_stamp : Z;                   (* u64 *)
  rt_avg : Z                       (* u64 *)
}.

(** What the governor takes from the rest of the kernel: constants of
    headers, configuration switches, and the functions and counters of
    other subsystems, read at the time of one update call. *)
Record kernel_env := {
  TICK_NSEC : Z;
  NSEC_PER_USEC : Z;
  SCHED_CAPACITY_SHIFT : Z;
  SCHED_CPUFREQ_DL : Z;
  SCHED_CPUFREQ_IOWAIT : Z;
  CONFIG_SCHED_WALT : bool;
  CONFIG_ENERGY_MODEL : bool;
  sysctl_sched_use_walt_cpu_util : bool;
  walt_disabled : bool;
  stale_ns : Z;                    (* static unsigned int, set by algov_init *)
  arch_scale_freq_invariant : bool;
  map_util_freq : Z -> Z -> Z -> Z;
  em_pd_get_higher_freq : option em_perf_domain -> Z -> Z -> Z;
  cpufreq_driver_resolve_freq : cpufreq_policy -> Z -> Z;
  cpufreq_this_cpu_can_update : cpufreq_policy -> bool;
  tick_nohz_get_idle_calls : Z;
  tick_nohz_get_idle_calls_cpu : nat -> Z;
  arch_scale_cpu_capacity : nat -> Z;
  boosted_cpu_util : nat -> Z;
  cpu_rq : nat -> rq;              (* after sched_avg_update *)
  sched_avg_period : Z;
  kstrtouint : string -> option Z; (* base 10; None on a parse error *)
  EINVAL : Z
}.

(** What an update leaves for the outside to see. *)
Inductive event :=
  | Irq_work_queue
  | Trace_cpu_frequency (freq : Z).

Section Governor.

Variable K : kernel_env.

(** ** Governor internals *)

Definition algov_policy_get_pd (sg_policy : algov_policy)
  : option em_perf_domain :=
  if CONFIG_ENERGY_MODEL K then pd sg_policy else None.

Definition algov_should_update_freq (sg_policy : algov_policy) (time : Z)
  : bool :=
  if fast_switch_enabled (policy sg_policy)
     && negb (cpufreq_this_cpu_can_update K (policy sg_policy))
  then false
  else if need_freq_update sg_policy then true
  else
    let delta_ns := s64 (time - last_freq_update_time sg_policy) in
    (* No need to recalculate next freq for min_rate_limit_us at least *)
    delta_ns >=? min_rate_limit_ns sg_policy.

Definition algov_up_down_rate_limit (sg_policy : algov_policy) (time : Z)
  (next_freq' : Z) : bool :=
  let delta_ns := s64 (time - last_freq_update_time sg_policy) in
  if (next_freq' >? next_freq sg_policy)
     && (delta_ns <? up_rate_delay_ns sg_policy)
  then true
  else if (next_freq' <? next_freq sg_policy)
          && (delta_ns <? down_rate_delay_ns sg_policy)
  then true
  else false.

Definition algov_update_next_freq (sg_policy : algov_policy) (time : Z)
  (next_freq' : Z) : bool * algov_policy :=
  if algov_up_down_rate_limit sg_policy time next_freq' then
    (* Reset cached freq as next_freq isn't changed *)
    (false, set_cached_raw_freq 0 sg_policy)
  else if next_freq sg_policy =? next_freq' then
    (false, sg_policy)
  else
    let next_freq' :=
      if next_freq sg_policy >? next_freq'
      then Z.shiftr (u32 (next_freq sg_policy + next_freq')) 1
      else next_freq' in
    (true, set_last_freq_update_time time (set_next_freq next_freq' sg_policy)).

(** [#define cpufreq_driver_fast_switch(x, y) 0] *)
Definition cpufreq_driver_fast_switch (p : cpufreq_policy) (f : Z) : Z := 0.

Definition algov_fast_switch (sg_policy : algov_policy) (time : Z)
  (next_freq' : Z) : algov_policy * list event :=
  let '(changed, sg_policy) :=
    algov_update_next_freq sg_policy time next_freq' in
  if negb changed then (sg_policy, [])
  else
    let next_freq' := cpufreq_driver_fast_switch (policy sg_policy) next_freq' in
    if next_freq' =? 0 then (sg_policy, [])
    else
      (set_policy (set_policy_cur next_freq' (policy sg_policy)) sg_policy,
       [Trace_cpu_frequency next_freq']).

Definition algov_deferred_update (sg_policy : algov_policy) (time : Z)
  (next_freq' : Z) : algov_policy * list event :=
  let '(changed, sg_policy) :=
    algov_update_next_freq sg_policy time next_freq' in
  if negb changed then (sg_policy, [])
  else if negb (work_in_progress sg_policy) then
    (set_work_in_progress true sg_policy, [Irq_work_queue])
  else (sg_policy, []).

(** [CONFIG_NO_HZ_COMMON] is set: the other branch of the source does not
    parse. *)
Definition algov_cpu_is_busy (sg_cpu : algov_cpu) : bool * algov_cpu :=
  let idle_calls := tick_nohz_get_idle_calls K in
  let ret := idle_calls =? saved_idle_calls sg_cpu in
  (ret, set_saved_idle_calls idle_calls sg_cpu).

Definition algov_cpu_is_busy_update (sg_cpu : algov_cpu) (util' : Z)
  : algov_cpu :=
  let idle_calls := tick_nohz_get_idle_calls_cpu K (cpu sg_cpu) in
  let sg_cpu := set_saved_idle_calls idle_calls sg_cpu in
  let sg_cpu :=
    if util' <=? previous_util sg_cpu
    then set_saved_idle_calls (u64 (saved_idle_calls sg_cpu - 1)) sg_cpu
    else sg_cpu in
  set_previous_util util' sg_cpu.

(** The raw frequency of [get_next_freq], before the cache test. The
    division is the C one on [unsigned long]; [max'] is positive at every
    call ([Z.div] gives 0 on a zero divisor, as the arm64 division does). *)
Definition raw_freq (sg_policy : algov_policy) (util' max' : Z) (busy : bool)
  : Z :=
  let policy := policy sg_policy in
  let freq :=
    if arch_scale_freq_invariant K
    then cpuinfo_max_freq policy else policy_cur policy in
  let pd := algov_policy_get_pd sg_policy in
  let cost_margin := if busy then 1024 / 2 else 0 in
  let freq := u32 (map_util_freq K util' freq max') in
  let freq := u32 (em_pd_get_higher_freq K pd freq cost_margin) in
  u32 (u64 (u32 (freq + Z.shiftr freq 2) * util') / max').

Definition get_next_freq (sg_policy : algov_policy) (util' max' : Z)
  (busy : bool) : Z * algov_policy :=
  let freq := raw_freq sg_policy util' max' busy in
  if (freq =? cached_raw_freq sg_policy) && negb (need_freq_update sg_policy)
  then (next_freq sg_policy, sg_policy)
  else
    let sg_policy := set_need_freq_update false sg_policy in
    let sg_policy := set_cached_raw_freq freq sg_policy in
    (cpufreq_driver_resolve_freq K (policy sg_policy) freq, sg_policy).

Definition use_pelt : bool :=
  if CONFIG_SCHED_WALT K
  then negb (sysctl_sched_use_walt_cpu_util K) || walt_disabled K
  else true.

Definition algov_get_util (time : Z) (cpu' : nat) : Z * Z :=
  let rq := cpu_rq K cpu' in
  let max_cap := arch_scale_cpu_capacity K cpu' in
  let delta := s64 (time - age_stamp rq) in
  let delta := if delta <? 0 then 0 else delta in
  let rt := rt_avg rq / u64 (sched_avg_period K + delta) in
  let rt := Z.shiftr (u64 (rt * max_cap)) (SCHED_CAPACITY_SHIFT K) in
  let util' := boosted_cpu_util K cpu' in
  let util' := if use_pelt then u64 (util' + rt) else util' in
  let util' := Z.min util' max_cap in
  (util', max_cap).

(** [sg_policy->tunables] points to the tunables object shared by the
    policies attached to it; it is passed next to the policy. The flag
    tested is the one stored in [sg_cpu->flags]. *)
Definition algov_set_iowait_boost (tunables : algov_tunables)
  (sg_policy : algov_policy) (sg_cpu : algov_cpu) (time : Z) : algov_cpu :=
  if negb (iowait_boost_enable tunables) then sg_cpu
  else
    (* Clear iowait_boost if the CPU apprears to have been idle. *)
    let sg_cpu :=
      if negb (iowait_boost sg_cpu =? 0) then
        let delta_ns := s64 (time - last_update sg_cpu) in
        if delta_ns >? TICK_NSEC K
        then set_iowait_boost_pending false (set_iowait_boost 0 sg_cpu)
        else sg_cpu
      else sg_cpu in
    if flag_set (flags sg_cpu) (SCHED_CPUFREQ_IOWAIT K) then
      if iowait_boost_pending sg_cpu then sg_cpu
      else
        let sg_cpu := set_iowait_boost_pending true sg_cpu in
        if negb (iowait_boost sg_cpu =? 0) then
          let sg_cpu :=
            set_iowait_boost (u32 (Z.shiftl (iowait_boost sg_cpu) 1)) sg_cpu in
          if iowait_boost sg_cpu >? iowait_boost_max sg_cpu
          then set_iowait_boost (iowait_boost_max sg_cpu) sg_cpu
          else sg_cpu
        else set_iowait_boost (policy_min (policy sg_policy)) sg_cpu
    else sg_cpu.

(** Returns the per-CPU object and the pair left in [*util], [*max]. *)
Definition algov_iowait_boost (sg_policy : algov_policy) (sg_cpu : algov_cpu)
  (util' max' : Z) : algov_cpu * Z * Z :=
  if iowait_boost sg_cpu =? 0 then (sg_cpu, util', max')
  else
    let apply (sg_cpu : algov_cpu) :=
      let boost_util := iowait_boost sg_cpu in
      let boost_max := iowait_boost_max sg_cpu in
      if u64 (util' * boost_max) <? u64 (max' * boost_util)
      then (sg_cpu, boost_util, boost_max)
      else (sg_cpu, util', max') in
    if iowait_boost_pending sg_cpu then
      apply (set_iowait_boost_pending false sg_cpu)
    else
      let sg_cpu := set_iowait_boost (Z.shiftr (iowait_boost sg_cpu) 1) sg_cpu in
      if iowait_boost sg_cpu <? policy_min (policy sg_policy)
      then (set_iowait_boost 0 sg_cpu, util', max')
      else apply sg_cpu.

(** The apply mode of the policy. *)
Definition algov_apply (sg_policy : algov_policy) (time next_f : Z)
  : algov_policy * list event :=
  if fast_switch_enabled (policy sg_policy)
  then algov_fast_switch sg_policy time next_f
  else algov_deferred_update sg_policy time next_f.

(** [algov_update_single] in three parts. First, the three calls that
    compute a fresh frequency when the update is not a deadline one:
    [algov_get_util], [algov_iowait_boost], [get_next_freq]. *)
Definition algov_single_select (sg_policy : algov_policy) (sg_cpu : algov_cpu)
  (time : Z) (busy : bool) : Z * algov_policy * algov_cpu :=
  let '(util', max') := algov_get_util time (cpu sg_cpu) in
  let '(sg_cpu, util', max') :=
    algov_iowait_boost sg_policy sg_cpu util' max' in
  let '(next_f, sg_policy) := get_next_freq sg_policy util' max' busy in
  (next_f, sg_policy, sg_cpu).

(** Second, the part between the two gates and the apply path: the busy
    classification and the choice of [next_f]. [util_uninit] is the value
    of the local [util] where [algov_cpu_is_busy_update] reads it, before
    any assignment. *)
Definition algov_single_next_f (sg_policy : algov_policy) (sg_cpu : algov_cpu)
  (time flags' util_uninit : Z) : Z * algov_policy * algov_cpu :=
  let '(busy, sg_cpu) :=
    if use_pelt then algov_cpu_is_busy sg_cpu else (false, sg_cpu) in
  let sg_cpu := algov_cpu_is_busy_update sg_cpu util_uninit in
  if flag_set flags' (SCHED_CPUFREQ_DL K) then
    (cpuinfo_max_freq (policy sg_policy), sg_policy, sg_cpu)
  else
    let '(next_f, sg_policy, sg_cpu) :=
      algov_single_select sg_policy sg_cpu time busy in
    (* Do not reduce the frequency if the CPU has not been idle recently *)
    if busy && (next_f <? next_freq sg_policy)
       && negb (next_freq sg_policy =? UINT_MAX)
    then
      (* Reset cached freq as next_freq has changed *)
      (next_freq sg_policy, set_cached_raw_freq 0 sg_policy, sg_cpu)
    else (next_f, sg_policy, sg_cpu).

(** Third, the whole function. *)
Definition algov_update_single (tunables : algov_tunables)
  (sg_policy : algov_policy) (sg_cpu : algov_cpu)
  (time flags' util_uninit : Z) : algov_policy * algov_cpu * list event :=
  let sg_cpu := algov_set_iowait_boost tunables sg_policy sg_cpu time in
  let sg_cpu := set_last_update time sg_cpu in
  if work_in_progress sg_policy then (sg_policy, sg_cpu, [])
  else if negb (algov_should_update_freq sg_policy time)
  then (sg_policy, sg_cpu, [])
  else
    let '(next_f, sg_policy, sg_cpu) :=
      algov_single_next_f sg_policy sg_cpu time flags' util_uninit in
    let '(sg_policy, evs) := algov_apply sg_policy time next_f in
    (sg_policy, sg_cpu, evs).

(** *** Shared policies *)

(** How the [for_each_cpu] loop of [algov_next_freq_shared] ends: by the
    [return] inside it, or by running off the mask with its locals. *)
Inductive scan_result :=
  | Scan_return (freq : Z) (st : per_cpu_store)
  | Scan_done (util' max' sg_cpu_util : Z) (busy : bool) (st : per_cpu_store).

(** The loop of [algov_next_freq_shared] over the CPUs still to visit.
    [p] is the CPU whose object [sg_cpu] points to. *)
Fixpoint algov_shared_scan (sg_policy : algov_policy) (p : nat) (time : Z)
  (cpus : list nat) (st : per_cpu_store)
  (util' max' sg_cpu_util : Z) (busy : bool) : scan_result :=
  match cpus with
  | [] => Scan_done util' max' sg_cpu_util busy st
  | j :: cpus =>
    let j_sg_cpu := st j in
    let delta_ns := s64 (time - last_update j_sg_cpu) in
    if delta_ns >? stale_ns K then
      let j_sg_cpu :=
        set_iowait_boost_pending false (set_iowait_boost 0 j_sg_cpu) in
      algov_shared_scan sg_policy p time cpus (per_cpu_set st j j_sg_cpu)
        util' max' sg_cpu_util busy
    else if flag_set (flags j_sg_cpu) (SCHED_CPUFREQ_DL K) then
      Scan_return (cpuinfo_max_freq (policy sg_policy)) st
    else
      let j_util := util j_sg_cpu in
      let sg_cpu_util := if Nat.eqb j p then j_util else sg_cpu_util in
      let j_max := max j_sg_cpu in
      let '(b, j_sg_cpu) := algov_cpu_is_busy j_sg_cpu in
      let busy := busy || b in
      let '(util', max') :=
        if u64 (j_util * max') >? u64 (j_max * util')
        then (j_util, j_max) else (util', max') in
      let '(j_sg_cpu, util', max') :=
        algov_iowait_boost sg_policy j_sg_cpu util' max' in
      algov_shared_scan sg_policy p time cpus (per_cpu_set st j j_sg_cpu)
        util' max' sg_cpu_util busy
  end.

Definition algov_next_freq_shared (sg_policy : algov_policy)
  (st : per_cpu_store) (p : nat) (time : Z)
  : Z * algov_policy * per_cpu_store :=
  match algov_shared_scan sg_policy p time (policy_cpus (policy sg_policy))
          st 0 1 0 false with
  | Scan_return freq st => (freq, sg_policy, st)
  | Scan_done util' max' sg_cpu_util busy st =>
    (* Only update the business status if we are looking at the CPU for
       which a utilization change triggered a call to get_next_freq(). *)
    let st := per_cpu_set st p (algov_cpu_is_busy_update (st p) sg_cpu_util) in
    let '(next_f, sg_policy) := get_next_freq sg_policy util' max' busy in
    (next_f, sg_policy, st)
  end.

Definition algov_update_shared (tunables : algov_tunables)
  (sg_policy : algov_policy) (st : per_cpu_store) (p : nat)
  (time flags' : Z) : algov_policy * per_cpu_store * list event :=
  let sg_cpu := st p in
  let '(util', max') := algov_get_util time (cpu sg_cpu) in
  let sg_cpu := set_util util' sg_cpu in
  let sg_cpu := set_max max' sg_cpu in
  let sg_cpu := set_flags flags' sg_cpu in
  let sg_cpu := algov_set_iowait_boost tunables sg_policy sg_cpu time in
  let sg_cpu := set_last_update time sg_cpu in
  let st := per_cpu_set st p sg_cpu in
  if algov_should_update_freq sg_policy time then
    let '(next_f, sg_policy, st) :=
      if flag_set flags' (SCHED_CPUFREQ_DL K)
      then (cpuinfo_max_freq (policy sg_policy), sg_policy, st)
      else algov_next_freq_shared sg_policy st p time in
    let '(sg_policy, evs) := algov_apply sg_policy time next_f in
    (sg_policy, st, evs)
  else (sg_policy, st, []).

(** The worker: the frequency it hands to [__cpufreq_driver_target]. *)
Definition algov_work (sg_policy : algov_policy) : algov_policy * Z :=
  let freq := next_freq sg_policy in
  (set_work_in_progress false sg_policy, freq).

(** ** sysfs interface *)

Definition update_min_rate_limit_us (sg_policy : algov_policy)
  : algov_policy :=
  set_min_rate_limit_ns
    (Z.min (up_rate_delay_ns sg_policy) (down_rate_delay_ns sg_policy))
    sg_policy.

(** A tunables object with the policies hooked on its attribute set. *)
Record gov_attr_set := {
  attr_tunables : algov_tunables;
  policy_list : list algov_policy
}.

(** Statements of a C function body over a state [S]: a statement either
    falls through to the next one or leaves the function with [return]. *)
Inductive flow (R A : Type) :=
  | Next (a : A)
  | Return (r : R).
Arguments Next {R A} a.
Arguments Return {R A} r.

Definition stmt (S R A : Type) := S -> flow R A * S.

Definition skip {S R} : stmt S R unit := fun s => (Next tt, s).
Definition c_return {S R A} (r : R) : stmt S R A := fun s => (Return r, s).
Definition assign {S R} (f : S -> S) : stmt S R unit :=
  fun s => (Next tt, f s).
Definition seq {S R A B} (c : stmt S R A) (k : A -> stmt S R B)
  : stmt S R B :=
  fun s =>
    match c s with
    | (Next a, s') => k a s'
    | (Return r, s') => (Return r, s')
    end.

Notation "c ;; k" := (seq (B := _) (A := unit) c (fun _ => k))
  (at level 61, right associativity).

(** Runs a body of which every path ends in [return]. *)
Definition call {S R} (body : stmt S R R) (s : S) : R * S :=
  match body s with
  | (Next r, s') => (r, s')
  | (Return r, s') => (r, s')
  end.

Definition up_rate_limit_us_store (buf : string) (count : Z)
  : stmt gov_attr_set Z Z :=
  (* Don't let userspace change this *)
  c_return (s64 count) ;;
  match kstrtouint K buf with
  | None => c_return (- EINVAL K)
  | Some rate_limit_us =>
    assign (fun a =>
      {| attr_tunables := set_up_rate_limit_us rate_limit_us (attr_tunables a);
         policy_list := policy_list a |}) ;;
    assign (fun a =>
      {| attr_tunables := attr_tunables a;
         policy_list :=
           map (fun sg_policy =>
                  update_min_rate_limit_us
                    (set_up_rate_delay_ns
                       (s64 (rate_limit_us * NSEC_PER_USEC K)) sg_policy))
               (policy_list a) |}) ;;
    c_return (s64 count)
  end.

Definition down_rate_limit_us_store (buf : string) (count : Z)
  : stmt gov_attr_set Z Z :=
  (* Don't let userspace change this *)
  c_return (s64 count) ;;
  match kstrtouint K buf with
  | None => c_return (- EINVAL K)
  | Some rate_limit_us =>
    assign (fun a =>
      {| attr_tunables :=
           set_down_rate_limit_us rate_limit_us (attr_tunables a);
         policy_list := policy_list a |}) ;;
    assign (fun a =>
      {| attr_tunables := attr_tunables a;
         policy_list :=
           map (fun sg_policy =>
                  update_min_rate_limit_us
                    (set_down_rate_delay_ns
                       (s64 (rate_limit_us * NSEC_PER_USEC K)) sg_policy))
               (policy_list a) |}) ;;
    c_return (s64 count)
  end.

(** ** Governor start: the reset of the transient state *)

Definition algov_start_policy (tunables : algov_tunables)
  (sg_policy : algov_policy) : algov_policy :=
  let sg_policy :=
    set_up_rate_delay_ns
      (s64 (up_rate_limit_us tunables * NSEC_PER_USEC K)) sg_policy in
  let sg_policy :=
    set_down_rate_delay_ns
      (s64 (down_rate_limit_us tunables * NSEC_PER_USEC K)) sg_policy in
  let sg_policy := update_min_rate_limit_us sg_policy in
  let sg_policy := set_last_freq_update_time 0 sg_policy in
  let sg_policy := set_next_freq 0 sg_policy in
  let sg_policy := set_work_in_progress false sg_policy in
  let sg_policy := set_need_freq_update false sg_policy in
  set_cached_raw_freq 0 sg_policy.

Definition algov_start_cpu (pol : cpufreq_policy) (cpu' : nat) : algov_cpu :=
  {| iowait_boost_pending := false; iowait_boost := 0;
     iowait_boost_max := cpuinfo_max_freq pol; last_update := 0;
     util := 0; max := 0; flags := SCHED_CPUFREQ_DL K; cpu := cpu';
     saved_idle_calls := 0; previous_util := 0 |}.

End Governor.

(** ** Observing the rate limiter over a sequence of evaluations *)

Inductive verdict := Accept_up | Accept_down | Reject.

(** The outcome of presenting [f] to the policy [sg_policy]: the direction
    is that of [f] against [next_freq] before the call. *)
Definition classify (sg_policy : algov_policy) (f : Z) (accepted : bool)
  : verdict :=
  if accepted then
    if f >? next_freq sg_policy then Accept_up else Accept_down
  else Reject.

(** Evaluations [(time, f)] presented one after the other to
    [algov_update_next_freq], each on the state the previous one left. *)
Fixpoint limiter_trace (sg_policy : algov_policy) (evals : list (Z * Z))
  : list (Z * verdict) :=
  match evals with
  | [] => []
  | (time, f) :: evals =>
    let '(accepted, sg_policy') := algov_update_next_freq sg_policy time f in
    (time, classify sg_policy f accepted) :: limiter_trace sg_policy' evals
  end.

(** ** A concrete kernel and concrete objects, for the examples *)

Definition decimal_digit (c : Ascii.ascii) : option Z :=
  let n := Z.of_nat (Ascii.nat_of_ascii c) in
  if (48 <=? n) && (n <=? 57) then Some (n - 48) else None.

Fixpoint parse_decimal (acc : Z) (s : string) : option Z :=
  match s with
  | EmptyString => Some acc
  | String c s =>
    match decimal_digit c with
    | Some d => parse_decimal (10 * acc + d) s
    | None => None
    end
  end.

Definition example_env : kernel_env :=
  {| TICK_NSEC := 10000000;
     NSEC_PER_USEC := 1000;
     SCHED_CAPACITY_SHIFT := 10;
     SCHED_CPUFREQ_DL := 2;
     SCHED_CPUFREQ_IOWAIT := 4;
     CONFIG_SCHED_WALT := false;
     CONFIG_ENERGY_MODEL := false;
     sysctl_sched_use_walt_cpu_util := false;
     walt_disabled := false;
     stale_ns := 22500000;
     arch_scale_freq_invariant := true;
     map_util_freq := fun u f m => (f + Z.shiftr f 2) * u / m;
     em_pd_get_higher_freq := fun _ f _ => f;
     cpufreq_driver_resolve_freq :=
       fun p f => Z.max (policy_min p) (Z.min (policy_max p) f);
     cpufreq_this_cpu_can_update := fun _ => true;
     tick_nohz_get_idle_calls := 7;
     tick_nohz_get_idle_calls_cpu := fun _ => 7;
     arch_scale_cpu_capacity := fun _ => 1024;
     boosted_cpu_util := fun _ => 300;
     cpu_rq := fun _ => {| age_stamp := 0; rt_avg := 0 |};
     sched_avg_period := 500000000;
     kstrtouint :=
       fun s => match s with
                | EmptyString => None
                | _ => parse_decimal 0 s
                end;
     EINVAL := 22 |}.

Definition example_cpufreq_policy : cpufreq_policy :=
  {| policy_cpu := 0; policy_cpus := [0%nat; 1%nat];
     policy_min := 300000; policy_max := 1800000; policy_cur := 1000000;
     cpuinfo_max_freq := 1800000; fast_switch_enabled := false |}.

Definition example_tunables : algov_tunables :=
  {| up_rate_limit_us := 500; down_rate_limit_us := 20000;
     iowait_boost_enable := false |}.

(** The policy as [algov_start] leaves it. *)
Definition example_policy : algov_policy :=
  algov_start_policy example_env example_tunables
    {| policy := example_cpufreq_policy; last_freq_update_time := 0;
       min_rate_limit_ns := 0; up_rate_delay_ns := 0;
       down_rate_delay_ns := 0; next_freq := 0; cached_raw_freq := 0;
       work_in_progress := false; need_freq_update := false; pd := None |}.

(** ** Statements of the specification that are compared with the code *)

(** The rule of the specification for a candidate that is not rejected:
    downward as it is, upward averaged. *)
Definition spec_accept_rule (sg : algov_policy) (t f : Z) : Prop :=
  algov_up_down_rate_limit sg t f = false ->
  (f < next_freq sg ->
     next_freq (snd (algov_update_next_freq sg t f)) = f) /\
  (f > next_freq sg ->
     next_freq (snd (algov_update_next_freq sg t f))
     = (next_freq sg + f) / 2).

Definition example_policy_at (f : Z) : algov_policy :=
  set_next_freq f example_policy.



(** The deadline rule of the specification: whatever the state, an update
    carrying the deadline flag leaves the maximum frequency as the one the
    worker hands to the driver. *)
Definition spec_deadline_single (K : kernel_env) (tunables : algov_tunables)
  (sg : algov_policy) (c : algov_cpu) (time flags' util_uninit : Z) : Prop :=
  flag_set flags' (SCHED_CPUFREQ_DL K) = true ->
  snd (algov_work
         (fst (fst (algov_update_single K tunables sg c time flags'
                      util_uninit))))
  = cpuinfo_max_freq (policy sg).

Definition spec_deadline_shared (K : kernel_env) (tunables : algov_tunables)
  (sg : algov_policy) (st : per_cpu_store) (p : nat) (time flags' : Z)
  : Prop :=
  flag_set flags' (SCHED_CPUFREQ_DL K) = true ->
  snd (algov_work
         (fst (fst (algov_update_shared K tunables sg st p time flags'))))
  = cpuinfo_max_freq (policy sg).

(** Per-CPU objects as [algov_start] leaves them, and variations. *)
Definition example_cpu (n : nat) : algov_cpu :=
  algov_start_cpu example_env example_cpufreq_policy n.

Definition example_store : per_cpu_store := example_cpu.

(** The policy with the raw frequency of utilization 300 of 1024 cached. *)
Definition example_policy_cached : algov_policy :=
  set_cached_raw_freq (raw_freq example_env example_policy 300 1024 false)
    example_policy.

Definition example_attr_set : gov_attr_set :=
  {| attr_tunables := example_tunables; policy_list := [example_policy] |}.

(** A processor that has not gone idle since the previous observation,
    under a policy whose frequency is well above what its load asks for. *)
Definition example_busy_cpu : algov_cpu :=
  set_saved_idle_calls 7 (set_flags 0 (example_cpu 0)).

(** *** The aggregation over a shared policy *)

(** The staleness test of the scan. *)
Definition stale (K : kernel_env) (time : Z) (c : algov_cpu) : bool :=
  s64 (time - last_update c) >? stale_ns K.

(** The objects of the members that the scan does not skip, in scan
    order. *)
Definition live (K : kernel_env) (time : Z) (st : per_cpu_store)
  (cpus : list nat) : list algov_cpu :=
  filter (fun c => negb (stale K time c)) (map st cpus).

(** What [algov_iowait_boost] leaves in the per-CPU object; it does not
    depend on the pair passed in. *)
Definition boost_decay (sg : algov_policy) (c : algov_cpu) : algov_cpu :=
  fst (fst (algov_iowait_boost sg c 0 1)).

(** What one round of the scan does to the running pair for a member that
    is neither stale nor a deadline one: the comparison, then the boost of
    that member. *)
Definition pair_step (K : kernel_env) (sg : algov_policy) (acc : Z * Z)
  (c : algov_cpu) : Z * Z :=
  let '(u, m) := acc in
  let '(u, m) :=
    if u64 (util c * m) >? u64 (max c * u) then (util c, max c) else (u, m) in
  let '(_, u, m) :=
    algov_iowait_boost sg (snd (algov_cpu_is_busy K c)) u m in
  (u, m).

(** The object a member is left with by a scan that runs to its end. *)
Definition member_after (K : kernel_env) (sg : algov_policy) (time : Z)
  (c : algov_cpu) : algov_cpu :=
  if stale K time c
  then set_iowait_boost_pending false (set_iowait_boost 0 c)
  else boost_decay sg (snd (algov_cpu_is_busy K c)).

(** Values that fit 32 bits, with positive capacities. *)
Definition pair_ok (acc : Z * Z) : Prop :=
  0 <= fst acc < 2 ^ 32 /\ 0 < snd acc < 2 ^ 32.

Definition member_ok (c : algov_cpu) : Prop :=
  0 <= util c < 2 ^ 32 /\ 0 < max c < 2 ^ 32
  /\ 0 <= iowait_boost c < 2 ^ 32 /\ 0 < iowait_boost_max c < 2 ^ 32.

(** [acc] is the pair of the first of the members [cs] that reaches the
    greatest ratio of utilization to capacity, or [(0, 1)] when all
    utilizations are zero. *)
Definition first_max (cs : list algov_cpu) (acc : Z * Z) : Prop :=
  (acc = (0, 1) /\ forall x, In x cs -> util x = 0)
  \/ exists pre c post,
       cs = pre ++ c :: post /\ acc = (util c, max c)
       /\ (forall x, In x pre -> util x * max c < max x * util c)
       /\ (forall x, In x post -> util x * max c <= max x * util c).

(** The aggregation as the specification words it: the pair of the member
    selected by the strict cross-multiplied comparison, with the io-wait
    boost of that member alone applied to it. *)
Definition spec_select (acc : Z * Z * option algov_cpu) (c : algov_cpu)
  : Z * Z * option algov_cpu :=
  let '(u, m, sel) := acc in
  if u64 (util c * m) >? u64 (max c * u)
  then (util c, max c, Some c) else (u, m, sel).

Definition spec_aggregate (K : kernel_env) (sg : algov_policy) (time : Z)
  (st : per_cpu_store) (cpus : list nat) : Z * Z :=
  let '(u, m, sel) := fold_left spec_select (live K time st cpus) (0, 1, None) in
  match sel with
  | None => (u, m)
  | Some c => let '(_, u, m) := algov_iowait_boost sg c u m in (u, m)
  end.

(** The pair and the busy flag a scan ends with. *)
Definition scan_pair (r : scan_result) : option (Z * Z) :=
  match r with
  | Scan_done u m _ _ _ => Some (u, m)
  | Scan_return _ _ => None
  end.

Definition scan_busy (r : scan_result) : option bool :=
  match r with
  | Scan_done _ _ _ busy _ => Some busy
  | Scan_return _ _ => None
  end.

Definition scan_store (r : scan_result) : per_cpu_store :=
  match r with
  | Scan_done _ _ _ _ st => st
  | Scan_return _ st => st
  end.

(** A shared policy of two processors, both updated within the last
    microsecond: CPU 0 at 100 of 1024, CPU 1 at 50 of 1024 with a pending
    io-wait boost and an idle-entry count saved at 3. *)
Definition example_shared_store : per_cpu_store :=
  fun j =>
    match j with
    | O =>
      set_last_update 1000000000
        (set_max 1024 (set_util 100 (set_flags 0 (example_cpu 0))))
    | _ =>
      set_saved_idle_calls 3
        (set_iowait_boost_pending true
           (set_iowait_boost 800000
              (set_last_update 999999000
                 (set_max 1024 (set_util 50 (set_flags 0 (example_cpu 1)))))))
    end.

(** The same without the boost. *)
Definition example_plain_store : per_cpu_store :=
  fun j => set_iowait_boost_pending false
             (set_iowait_boost 0 (example_shared_store j)).

(** The aggregation rule of the specification: the scan ends with the
    pair [spec_aggregate] describes. *)
Definition spec_aggregation_rule (K : kernel_env) (sg : algov_policy)
  (p : nat) (time : Z) (st : per_cpu_store) (cpus : list nat) : Prop :=
  scan_pair (algov_shared_scan K sg p time cpus st 0 1 0 false)
  = Some (spec_aggregate K sg time st cpus).

(** The frame rule of the specification for the busy classifier: an
    aggregation triggered by [p] leaves the classifier fields of the other
    members as they were. *)
Definition spec_classifier_frame (K : kernel_env) (sg : algov_policy)
  (st : per_cpu_store) (p : nat) (time : Z) : Prop :=
  forall j, j <> p -> In j (policy_cpus (policy sg)) ->
    saved_idle_calls (snd (algov_next_freq_shared K sg st p time) j)
    = saved_idle_calls (st j)
    /\ previous_util (snd (algov_next_freq_shared K sg st p time) j)
       = previous_util (st j).

(** *** The io-wait booster *)

(** The ramp rule of the specification: on an update whose flags carry
    io-wait, a pending boost means no change, and otherwise the boost is
    marked pending and doubled up to its maximum, or seeded with the
    policy minimum when it was zero. *)
Definition spec_iowait_ramp (K : kernel_env) (tunables : algov_tunables)
  (sg : algov_policy) (c : algov_cpu) (time : Z) : Prop :=
  flag_set (flags c) (SCHED_CPUFREQ_IOWAIT K) = true ->
  let c' := algov_set_iowait_boost K tunables sg c time in
  (iowait_boost_pending c = true -> c' = c)
  /\ (iowait_boost_pending c = false ->
      iowait_boost_pending c' = true
      /\ iowait_boost c'
         = if iowait_boost c =? 0 then policy_min (policy sg)
           else Z.min (2 * iowait_boost c) (iowait_boost_max c)).

(** The staleness rule of the specification: more than a tick after the
    last update the boost is zero. *)
Definition spec_iowait_stale (K : kernel_env) (tunables : algov_tunables)
  (sg : algov_policy) (c : algov_cpu) (time : Z) : Prop :=
  s64 (time - last_update c) > TICK_NSEC K ->
  iowait_boost (algov_set_iowait_boost K tunables sg c time) = 0.

Definition example_boost_tunables : algov_tunables :=
  {| up_rate_limit_us := 500; down_rate_limit_us := 20000;
     iowait_boost_enable := true |}.

(** A processor whose flags carry io-wait, without a boost yet. *)
Definition example_iowait_cpu : algov_cpu := set_flags 4 (example_cpu 0).

(** The same with a boost of 600000 pending since time 0. *)
Definition example_boosted_cpu : algov_cpu :=
  set_iowait_boost_pending true (set_iowait_boost 600000 example_iowait_cpu).

(** ** The rest of the governor: limits, tunables, runs of updates *)

Definition set_iowait_boost_enable (v : bool) (t : algov_tunables)
  : algov_tunables :=
  {| up_rate_limit_us := up_rate_limit_us t;
     down_rate_limit_us := down_rate_limit_us t;
     iowait_boost_enable := v |}.

(** [algov_limits]. [cpufreq_policy_apply_limits] belongs to the cpufreq
    core and may retarget the driver, hence change [policy->cur]. *)
Definition algov_limits
  (cpufreq_policy_apply_limits : cpufreq_policy -> cpufreq_policy)
  (sg_policy : algov_policy) : algov_policy :=
  let sg_policy :=
    if negb (fast_switch_enabled (policy sg_policy))
    then set_policy (cpufreq_policy_apply_limits (policy sg_policy)) sg_policy
    else sg_policy in
  set_need_freq_update true sg_policy.

(** [iowait_boost_enable_store]; [kstrtobool] gives [None] on a buffer
    that is no boolean. *)
Definition iowait_boost_enable_store (K : kernel_env)
  (kstrtobool : string -> option bool) (buf : string) (count : Z)
  : stmt gov_attr_set Z Z :=
  match kstrtobool buf with
  | None => c_return (- EINVAL K)
  | Some enable =>
    seq (A := unit)
      (assign (fun a =>
         {| attr_tunables := set_iowait_boost_enable enable (attr_tunables a);
            policy_list := policy_list a |}))
      (fun _ => c_return (s64 count))
  end.

(** [#define UP_RATE_LIMIT_US], [DOWN_RATE_LIMIT_US], [algov_up_rate_limit],
    [algov_down_rate_limit]. *)
Definition UP_RATE_LIMIT_US : Z := 500.
Definition DOWN_RATE_LIMIT_US : Z := 20000.
Definition algov_up_rate_limit : Z := 500.
Definition algov_down_rate_limit : Z := 20000.

(** What [kzalloc] returns for a tunables object. *)
Definition zeroed_tunables : algov_tunables :=
  {| up_rate_limit_us := 0; down_rate_limit_us := 0;
     iowait_boost_enable := false |}.

(** The tunables [algov_init] fills in after [algov_tunables_alloc], up to
    the call of [algov_tunables_restore]. The two delays and the latency
    are fields of the cpufreq policy ([up_transition_delay_us],
    [down_transition_delay_us], [cpuinfo.transition_latency]). *)
Definition algov_init_tunables (K : kernel_env)
  (up_transition_delay_us down_transition_delay_us transition_latency : Z)
  : algov_tunables :=
  let tunables := zeroed_tunables in
  let tunables :=
    if negb (up_transition_delay_us =? 0)
       && negb (down_transition_delay_us =? 0)
    then
      set_down_rate_limit_us down_transition_delay_us
        (set_up_rate_limit_us up_transition_delay_us tunables)
    else
      let tunables := set_up_rate_limit_us UP_RATE_LIMIT_US tunables in
      let tunables := set_down_rate_limit_us DOWN_RATE_LIMIT_US tunables in
      let lat := u32 (transition_latency / NSEC_PER_USEC K) in
      if negb (lat =? 0) then
        let tunables :=
          set_up_rate_limit_us (u32 (up_rate_limit_us tunables * lat))
            tunables in
        set_down_rate_limit_us (u32 (down_rate_limit_us tunables * lat))
          tunables
      else tunables in
  (* Hard-code some sane rate-limit values *)
  let tunables := set_up_rate_limit_us algov_up_rate_limit tunables in
  let tunables := set_down_rate_limit_us algov_down_rate_limit tunables in
  set_iowait_boost_enable false tunables.

(** The per-CPU pointers [cached_tunables] and the objects they point to.
    Several CPUs may point to one object. *)
Record cached_store := {
  cached_ptr : nat -> option nat;        (* per_cpu(cached_tunables, cpu) *)
  cached_obj : nat -> algov_tunables;    (* the objects, by address *)
  cached_next : nat                      (* the address kzalloc gives next *)
}.

Definition cached_write (id : nat) (tunables : algov_tunables)
  (cs : cached_store) : cached_store :=
  {| cached_ptr := cached_ptr cs;
     cached_obj :=
       fun k =>
         if Nat.eqb k id then
           set_down_rate_limit_us (down_rate_limit_us tunables)
             (set_up_rate_limit_us (up_rate_limit_us tunables)
                (cached_obj cs k))
         else cached_obj cs k;
     cached_next := cached_next cs |}.

(** [algov_tunables_save]. [related_cpus] is [policy->related_cpus];
    [kzalloc_ok] tells whether the allocation succeeds. *)
Definition algov_tunables_save (have_governor_per_policy kzalloc_ok : bool)
  (pol : cpufreq_policy) (related_cpus : list nat)
  (tunables : algov_tunables) (cs : cached_store) : cached_store :=
  if negb have_governor_per_policy then cs
  else
    match cached_ptr cs (policy_cpu pol) with
    | Some cached => cached_write cached tunables cs
    | None =>
      if negb kzalloc_ok then cs
      else
        let cached := cached_next cs in
        let cs :=
          {| cached_ptr :=
               fun k =>
                 if existsb (Nat.eqb k) related_cpus then Some cached
                 else cached_ptr cs k;
             cached_obj :=
               fun k => if Nat.eqb k cached then zeroed_tunables
                        else cached_obj cs k;
             cached_next := S cached |} in
        cached_write cached tunables cs
    end.

(** [algov_tunables_restore], on the tunables and the governor policy that
    [policy->governor_data] points to. *)
Definition algov_tunables_restore (K : kernel_env) (cs : cached_store)
  (tunables : algov_tunables) (sg_policy : algov_policy)
  : algov_tunables * algov_policy :=
  match cached_ptr cs (policy_cpu (policy sg_policy)) with
  | None => (tunables, sg_policy)
  | Some cached =>
    let cached := cached_obj cs cached in
    let tunables := set_up_rate_limit_us (up_rate_limit_us cached) tunables in
    let tunables :=
      set_down_rate_limit_us (down_rate_limit_us cached) tunables in
    let sg_policy :=
      set_up_rate_delay_ns
        (s64 (up_rate_limit_us tunables * NSEC_PER_USEC K)) sg_policy in
    let sg_policy :=
      set_down_rate_delay_ns
        (s64 (down_rate_limit_us tunables * NSEC_PER_USEC K)) sg_policy in
    let sg_policy :=
      set_min_rate_limit_ns
        (Z.min (up_rate_delay_ns sg_policy) (down_rate_delay_ns sg_policy))
        sg_policy in
    (tunables, sg_policy)
  end.

(** Deferred updates [(time, f)] one after the other, the worker not
    running in between, with the events they leave. *)
Fixpoint deferred_run (sg_policy : algov_policy) (evals : list (Z * Z))
  : algov_policy * list event :=
  match evals with
  | [] => (sg_policy, [])
  | (time, f) :: evals =>
    let '(sg_policy, evs) := algov_deferred_update sg_policy time f in
    let '(sg_policy, evs') := deferred_run sg_policy evals in
    (sg_policy, evs ++ evs')
  end.

Definition accepted (v : verdict) : bool :=
  match v with
  | Reject => false
  | _ => true
  end.

(** One call of the single-policy hook, with the kernel as it is at that
    time. *)
Record single_update := {
  upd_env : kernel_env;
  upd_time : Z;
  upd_flags : Z;
  upd_util_uninit : Z
}.

(** Calls of [algov_update_single] on one processor, one after the other. *)
Fixpoint single_run (tunables : algov_tunables) (sg_policy : algov_policy)
  (sg_cpu : algov_cpu) (updates : list single_update)
  : algov_policy * algov_cpu :=
  match updates with
  | [] => (sg_policy, sg_cpu)
  | u :: updates =>
    let '(sg_policy, sg_cpu, _) :=
      algov_update_single (upd_env u) tunables sg_policy sg_cpu
        (upd_time u) (upd_flags u) (upd_util_uninit u) in
    single_run tunables sg_policy sg_cpu updates
  end.

(** Repeated applications of the boost with nothing setting it pending. *)
Fixpoint decay_run (sg : algov_policy) (n : nat) (c : algov_cpu)
  : algov_cpu :=
  match n with
  | O => c
  | S n => decay_run sg n (boost_decay sg c)
  end.

(** The boost of a processor is within its bounds. *)
Definition boost_ok (c : algov_cpu) : Prop :=
  0 <= iowait_boost c <= iowait_boost_max c.

Definition example_cached_store : cached_store :=
  {| cached_ptr := fun _ => None; cached_obj := fun _ => zeroed_tunables;
     cached_next := 0 |}.

Definition example_user_tunables : algov_tunables :=
  {| up_rate_limit_us := 1000; down_rate_limit_us := 40000;
     iowait_boost_enable := true |}.

(** A [kstrtobool] that reads the first characters of the buffer. *)
Definition example_kstrtobool (s : string) : option bool :=
  match s with
  | String c rest =>
    if existsb (Ascii.eqb c) ["1"; "y"; "Y"]%char then Some true
    else if existsb (Ascii.eqb c) ["0"; "n"; "N"]%char then Some false
    else if existsb (Ascii.eqb c) ["o"; "O"]%char then
      match rest with
      | String d _ =>
        if existsb (Ascii.eqb d) ["n"; "N"]%char then Some true
        else if existsb (Ascii.eqb d) ["f"; "F"]%char then Some false
        else None
      | EmptyString => None
      end
    else None
  | EmptyString => None
  end.

(** The delays of a policy are consistent: none is negative and the
    evaluation gate uses the smaller one. *)
Definition limits_ok (sg : algov_policy) : Prop :=
  0 <= up_rate_delay_ns sg /\ 0 <= down_rate_delay_ns sg
  /\ min_rate_limit_ns sg
     = Z.min (up_rate_delay_ns sg) (down_rate_delay_ns sg).

(** Two per-CPU objects agree on what the update hooks report and on what
    the start of the governor fixes. *)
Definition same_report (c c' : algov_cpu) : Prop :=
  util c' = util c /\ max c' = max c /\ flags c' = flags c
  /\ last_update c' = last_update c /\ cpu c' = cpu c
  /\ iowait_boost_max c' = iowait_boost_max c.

(** A policy object [s] has the configuration of [sg]: the cpufreq policy,
    the perf domain and the delays. *)
Definition same_config (sg s : algov_policy) : Prop :=
  policy s = policy sg /\ pd s = pd sg
  /\ up_rate_delay_ns s = up_rate_delay_ns sg
  /\ down_rate_delay_ns s = down_rate_delay_ns sg
  /\ min_rate_limit_ns s = min_rate_limit_ns sg.



(** ** Machine integer facts *)

Lemma s64_small (x : Z) : - 2 ^ 63 <= x < 2 ^ 63 -> s64 x = x.
Proof.
  intros H. unfold s64. rewrite Z.mod_small; lia.
Qed.


Lemma u32_small (x : Z) : 0 <= x < 2 ^ 32 -> u32 x = x.
Proof. intros H. unfold u32. apply Z.mod_small. exact H. Qed.

Lemma u64_small (x : Z) : 0 <= x < 2 ^ 64 -> u64 x = x.
Proof. intros H. unfold u64. apply Z.mod_small. exact H. Qed.

Lemma shiftr_1_half (x : Z) : Z.shiftr x 1 = x / 2.
Proof. rewrite Z.shiftr_div_pow2 by lia. reflexivity. Qed.

(** Case analysis on the tests of the code. *)
Ltac break_if :=
  match goal with
  | |- context [if ?b then _ else _] => destruct b; cbv beta iota zeta
  end.

(** Projections of updated per-CPU objects. *)
Ltac cpu_fields :=
  cbn [iowait_boost_pending iowait_boost iowait_boost_max last_update util
       max flags cpu saved_idle_calls previous_util
       set_iowait_boost_pending set_iowait_boost set_last_update set_util
       set_max set_flags set_saved_idle_calls set_previous_util] in *.

(** ** The rate limiter *)

Section RateLimiter.

Implicit Types (sg : algov_policy) (t f : Z).


Lemma rate_limit_up sg t f :
  f > next_freq sg ->
  s64 (t - last_freq_update_time sg) < up_rate_delay_ns sg ->
  algov_up_down_rate_limit sg t f = true.
Proof.
  intros Hf Hd. unfold algov_up_down_rate_limit.
  destruct (Z.gtb_spec f (next_freq sg)); [|lia].
  destruct (Z.ltb_spec (s64 (t - last_freq_update_time sg))
              (up_rate_delay_ns sg)); [reflexivity|lia].
Qed.

Lemma rate_limit_down sg t f :
  f < next_freq sg ->
  s64 (t - last_freq_update_time sg) < down_rate_delay_ns sg ->
  algov_up_down_rate_limit sg t f = true.
Proof.
  intros Hf Hd. unfold algov_up_down_rate_limit.
  destruct (Z.gtb_spec f (next_freq sg)); [lia|].
  destruct (Z.ltb_spec f (next_freq sg)); [|lia].
  destruct (Z.ltb_spec (s64 (t - last_freq_update_time sg))
              (down_rate_delay_ns sg)); [|lia].
  simpl. reflexivity.
Qed.

Lemma update_next_freq_down sg t f :
  algov_up_down_rate_limit sg t f = false ->
  f < next_freq sg ->
  algov_update_next_freq sg t f
  = (true, set_last_freq_update_time t
             (set_next_freq (u32 (next_freq sg + f) / 2) sg)).
Proof.
  intros Hrl Hf. unfold algov_update_next_freq. rewrite Hrl.
  destruct (Z.eqb_spec (next_freq sg) f); [lia|].
  destruct (Z.gtb_spec (next_freq sg) f); [|lia].
  rewrite shiftr_1_half. reflexivity.
Qed.

Lemma update_next_freq_up sg t f :
  algov_up_down_rate_limit sg t f = false ->
  f > next_freq sg ->
  algov_update_next_freq sg t f
  = (true, set_last_freq_update_time t (set_next_freq f sg)).
Proof.
  intros Hrl Hf. unfold algov_update_next_freq. rewrite Hrl.
  destruct (Z.eqb_spec (next_freq sg) f); [lia|].
  destruct (Z.gtb_spec (next_freq sg) f); [lia|].
  reflexivity.
Qed.

Lemma update_next_freq_equal sg t :
  algov_update_next_freq sg t (next_freq sg) = (false, sg).
Proof.
  unfold algov_update_next_freq, algov_up_down_rate_limit.
  rewrite Z.gtb_ltb, Z.ltb_irrefl. simpl.
  rewrite Z.eqb_refl. reflexivity.
Qed.

(** C1, as the code has it. A candidate [f] that the rate-limit test lets
    through is accepted and stamps the change time; a downward one
    ([f < next_freq]) is dampened, [next_freq] becoming the half of the
    32-bit sum [next_freq + f], which is [floor ((next_freq + f) / 2)] when
    the sum fits 32 bits; an upward one ([f > next_freq]) is taken as it
    is. *)
Theorem update_next_freq_accepted sg t f :
  algov_up_down_rate_limit sg t f = false ->
  (f < next_freq sg ->
     algov_update_next_freq sg t f
     = (true, set_last_freq_update_time t
                (set_next_freq (u32 (next_freq sg + f) / 2) sg))) /\
  (f < next_freq sg -> 0 <= next_freq sg + f < 2 ^ 32 ->
     next_freq (snd (algov_update_next_freq sg t f))
     = (next_freq sg + f) / 2) /\
  (f > next_freq sg ->
     algov_update_next_freq sg t f
     = (true, set_last_freq_update_time t (set_next_freq f sg))).
Proof.
  intros Hrl. repeat split.
  - apply update_next_freq_down; assumption.
  - intros Hf Hsum. rewrite update_next_freq_down by assumption.
    simpl. rewrite u32_small by assumption. reflexivity.
  - apply update_next_freq_up; assumption.
Qed.

Lemma update_next_freq_accepted_witness :
  next_freq (snd (algov_update_next_freq (example_policy_at 1000)
                    1000000000 500)) = (1000 + 500) / 2
  /\ next_freq (snd (algov_update_next_freq (example_policy_at 1000)
                       1000000000 2000)) = 2000.
Proof.
  split.
  - apply (update_next_freq_accepted (example_policy_at 1000) 1000000000 500
             eq_refl); vm_compute; intuition discriminate.
  - rewrite (proj2 (proj2 (update_next_freq_accepted
                             (example_policy_at 1000) 1000000000 2000
                             eq_refl))); [reflexivity | reflexivity].
Defined.

(** C1: the rule of the specification fails in both directions: from
    [next_freq = 1000] the candidate 500 leaves 750, not 500, and the
    candidate 2000 leaves 2000, not 1500. *)
Lemma accept_rule_counterexample :
  ~ spec_accept_rule (example_policy_at 1000) 1000000000 500
  /\ ~ spec_accept_rule (example_policy_at 1000) 1000000000 2000.
Proof.
  split; intros H; destruct (H eq_refl) as [Hdown Hup].
  - assert (E : 500 < next_freq (example_policy_at 1000)) by reflexivity.
    specialize (Hdown E). vm_compute in Hdown. discriminate.
  - assert (E : 2000 > next_freq (example_policy_at 1000)) by reflexivity.
    specialize (Hup E). vm_compute in Hup. discriminate.
Qed.

(** *** Windows between accepted changes *)





End RateLimiter.

(** ** The frequency selector *)

Section Selector.

Variable K : kernel_env.
Implicit Types (sg s : algov_policy) (t u m f : Z) (busy : bool).


(** What [get_next_freq] leaves alone. *)
Lemma get_next_freq_frame sg u m busy :
  let s := snd (get_next_freq K sg u m busy) in
  policy s = policy sg /\ pd s = pd sg /\ next_freq s = next_freq sg
  /\ last_freq_update_time s = last_freq_update_time sg
  /\ work_in_progress s = work_in_progress sg
  /\ up_rate_delay_ns s = up_rate_delay_ns sg
  /\ down_rate_delay_ns s = down_rate_delay_ns sg
  /\ min_rate_limit_ns s = min_rate_limit_ns sg.
Proof.
  unfold get_next_freq.
  destruct ((raw_freq K sg u m busy =? cached_raw_freq sg)
            && negb (need_freq_update sg)); simpl; repeat split.
Qed.

Lemma get_next_freq_no_refresh sg u m busy :
  need_freq_update (snd (get_next_freq K sg u m busy)) = false.
Proof.
  unfold get_next_freq.
  destruct (raw_freq K sg u m busy =? cached_raw_freq sg); simpl;
    [|reflexivity].
  destruct (need_freq_update sg) eqn:En; simpl; [reflexivity | exact En].
Qed.

Lemma get_next_freq_hit sg u m busy :
  raw_freq K sg u m busy = cached_raw_freq sg ->
  need_freq_update sg = false ->
  get_next_freq K sg u m busy = (next_freq sg, sg).
Proof.
  intros Er En. unfold get_next_freq.
  rewrite Er, Z.eqb_refl, En. reflexivity.
Qed.

Lemma apply_equal sg t : algov_apply sg t (next_freq sg) = (sg, []).
Proof.
  unfold algov_apply, algov_fast_switch, algov_deferred_update.
  rewrite update_next_freq_equal.
  destruct (fast_switch_enabled (policy sg)); reflexivity.
Qed.





End Selector.



(** ** Windows between accepted changes *)




(** Idempotence goes through the cache only while the cache holds the raw
    frequency: a first evaluation rejected by the rate limiter zeroes the
    cache, and the same inputs presented again a second later are
    evaluated afresh and accepted. *)
Example repeated_after_rejection :
  let r1 := get_next_freq example_env example_policy 300 1024 false in
  let a1 := algov_apply (snd r1) 1000 (fst r1) in
  let r2 := get_next_freq example_env (fst a1) 300 1024 false in
  snd a1 = [] /\ cached_raw_freq (fst a1) = 0
  /\ snd (algov_apply (snd r2) 1000000000 (fst r2)) = [Irq_work_queue].
Proof. vm_compute. repeat split. Qed.

(** ** The single-policy update path *)

Section SinglePath.

Variable K : kernel_env.
Implicit Types (sg : algov_policy) (c : algov_cpu) (tun : algov_tunables).

(** [algov_set_iowait_boost] writes the boost and its pending mark only. *)
Lemma set_iowait_boost_frame tun sg c time :
  let c' := algov_set_iowait_boost K tun sg c time in
  iowait_boost_max c' = iowait_boost_max c /\ last_update c' = last_update c
  /\ util c' = util c /\ max c' = max c /\ flags c' = flags c
  /\ cpu c' = cpu c /\ saved_idle_calls c' = saved_idle_calls c
  /\ previous_util c' = previous_util c.
Proof.
  unfold algov_set_iowait_boost. cbv zeta.
  repeat break_if; repeat split; reflexivity.
Qed.

(** C10. While [work_in_progress] is set, [algov_update_single] leaves the
    policy object as it is and requests nothing; of the per-CPU object only
    the io-wait boost, its pending mark and [last_update] are written. *)
Theorem update_single_work_in_progress tun sg c time flags' util_uninit :
  work_in_progress sg = true ->
  let c' := algov_set_iowait_boost K tun sg c time in
  algov_update_single K tun sg c time flags' util_uninit
  = (sg, set_last_update time c', [])
  /\ iowait_boost_max c' = iowait_boost_max c
  /\ util c' = util c /\ max c' = max c /\ flags c' = flags c
  /\ cpu c' = cpu c /\ saved_idle_calls c' = saved_idle_calls c
  /\ previous_util c' = previous_util c.
Proof.
  intros Hw c'. split.
  - unfold algov_update_single. rewrite Hw. reflexivity.
  - pose proof (set_iowait_boost_frame tun sg c time) as F.
    cbv zeta in F. fold c' in F. intuition.
Qed.

Lemma single_select_next_freq sg c time busy :
  next_freq (snd (fst (algov_single_select K sg c time busy)))
  = next_freq sg
  /\ last_freq_update_time (snd (fst (algov_single_select K sg c time busy)))
     = last_freq_update_time sg
  /\ policy (snd (fst (algov_single_select K sg c time busy))) = policy sg.
Proof.
  unfold algov_single_select.
  destruct (algov_get_util K time (cpu c)) as [u m].
  destruct (algov_iowait_boost sg c u m) as [[c2 u2] m2].
  pose proof (get_next_freq_frame K sg u2 m2 busy) as F. cbv zeta in F.
  destruct (get_next_freq K sg u2 m2 busy) as [f s]. simpl in *.
  intuition.
Qed.

(** C9. In [algov_update_single], past both gates and without the deadline
    flag, when the processor is classified busy and the frequency freshly
    computed is below [next_freq], which is not [UINT_MAX], the candidate
    handed to the apply path is [next_freq] itself and the cached raw
    frequency is zeroed: nothing is requested and [next_freq] and the
    change time stay as they were. *)
Theorem update_single_busy_keeps_freq tun sg c time flags' util_uninit :
  let c0 := set_last_update time (algov_set_iowait_boost K tun sg c time) in
  let c1 :=
    algov_cpu_is_busy_update K (snd (algov_cpu_is_busy K c0)) util_uninit in
  let r := algov_single_select K sg c1 time true in
  let sg' := set_cached_raw_freq 0 (snd (fst r)) in
  work_in_progress sg = false ->
  algov_should_update_freq K sg time = true ->
  flag_set flags' (SCHED_CPUFREQ_DL K) = false ->
  use_pelt K = true -> fst (algov_cpu_is_busy K c0) = true ->
  fst (fst r) < next_freq sg -> next_freq sg <> UINT_MAX ->
  algov_single_next_f K sg c0 time flags' util_uninit
  = (next_freq sg, sg', snd r)
  /\ algov_update_single K tun sg c time flags' util_uninit
     = (sg', snd r, [])
  /\ next_freq sg' = next_freq sg /\ cached_raw_freq sg' = 0
  /\ last_freq_update_time sg' = last_freq_update_time sg.
Proof.
  intros c0 c1 r sg' Hw Hg Hdl Hp Hb Hf Hmax.
  destruct (single_select_next_freq sg c1 time true) as (En & El & _).
  fold r in En, El.
  assert (Hn : algov_single_next_f K sg c0 time flags' util_uninit
               = (next_freq sg, sg', snd r)).
  { unfold algov_single_next_f. rewrite Hp.
    destruct (algov_cpu_is_busy K c0) as [b c0'] eqn:Eb. simpl in Hb.
    subst b. rewrite Hdl. subst c1. simpl snd in r. fold r.
    destruct r as [[f s] c2] eqn:Er. simpl in *. rewrite En.
    destruct (Z.ltb_spec f (next_freq sg)); [|lia].
    destruct (Z.eqb_spec (next_freq sg) UINT_MAX); [contradiction|].
    reflexivity. }
  split; [exact Hn|]. split; [|subst sg'; simpl; auto].
  unfold algov_update_single. rewrite Hw, Hg. simpl negb. cbv iota.
  fold c0. rewrite Hn.
  replace (next_freq sg) with (next_freq sg') by (subst sg'; simpl; exact En).
  rewrite apply_equal. reflexivity.
Qed.

(** C2, as the code has it. An update carrying the deadline flag takes
    the maximum frequency as its candidate without consulting the
    selector, but only past the gates: the single path returns before that
    while work is in progress or when [algov_should_update_freq] says no,
    the shared path when [algov_should_update_freq] says no. The candidate
    then goes through the rate limiter like any other: it is rejected when
    it is above [next_freq] and less than [up_delay] has gone by since the
    last change, and becomes [next_freq] when it is above and the delay has
    gone by. *)
Theorem deadline_update_candidate tun sg c st p time flags' util_uninit :
  flag_set flags' (SCHED_CPUFREQ_DL K) = true ->
  let c0 := set_last_update time (algov_set_iowait_boost K tun sg c time) in
  let max_freq := cpuinfo_max_freq (policy sg) in
  (work_in_progress sg = true \/ algov_should_update_freq K sg time = false ->
   algov_update_single K tun sg c time flags' util_uninit = (sg, c0, []))
  /\ (work_in_progress sg = false ->
      algov_should_update_freq K sg time = true ->
      fst (algov_single_next_f K sg c0 time flags' util_uninit)
      = (max_freq, sg)
      /\ fst (fst (algov_update_single K tun sg c time flags' util_uninit))
         = fst (algov_apply sg time max_freq)
      /\ snd (algov_update_single K tun sg c time flags' util_uninit)
         = snd (algov_apply sg time max_freq))
  /\ (algov_should_update_freq K sg time = false ->
      fst (fst (algov_update_shared K tun sg st p time flags')) = sg
      /\ snd (algov_update_shared K tun sg st p time flags') = [])
  /\ (algov_should_update_freq K sg time = true ->
      fst (fst (algov_update_shared K tun sg st p time flags'))
      = fst (algov_apply sg time max_freq)
      /\ snd (algov_update_shared K tun sg st p time flags')
         = snd (algov_apply sg time max_freq))
  /\ (max_freq > next_freq sg ->
      s64 (time - last_freq_update_time sg) < up_rate_delay_ns sg ->
      algov_apply sg time max_freq = (set_cached_raw_freq 0 sg, []))
  /\ (max_freq > next_freq sg ->
      up_rate_delay_ns sg <= s64 (time - last_freq_update_time sg) ->
      next_freq (fst (algov_apply sg time max_freq)) = max_freq).
Proof.
  intros Hdl c0 max_freq.
  assert (Hn : fst (algov_single_next_f K sg c0 time flags' util_uninit)
               = (max_freq, sg)).
  { unfold algov_single_next_f.
    destruct (if use_pelt K then algov_cpu_is_busy K c0 else (false, c0))
      as [b c0'].
    rewrite Hdl. reflexivity. }
  split; [|split; [|split; [|split; [|split]]]].
  - intros [Hw | Hg]; unfold algov_update_single; fold c0.
    + rewrite Hw. reflexivity.
    + rewrite Hg. destruct (work_in_progress sg); reflexivity.
  - intros Hw Hg. split; [exact Hn|].
    unfold algov_update_single. fold c0. rewrite Hw, Hg. simpl negb.
    cbv iota.
    destruct (algov_single_next_f K sg c0 time flags' util_uninit)
      as [[f s] c2]. simpl in Hn. injection Hn as -> ->.
    destruct (algov_apply sg time max_freq) as [s' evs]. split; reflexivity.
  - intros Hg. unfold algov_update_shared.
    destruct (algov_get_util K time (cpu (st p))) as [u m].
    rewrite Hg. split; reflexivity.
  - intros Hg. unfold algov_update_shared.
    destruct (algov_get_util K time (cpu (st p))) as [u m].
    rewrite Hg, Hdl. fold max_freq.
    destruct (algov_apply sg time max_freq) as [s' evs]. split; reflexivity.
  - intros Hf Hd. unfold algov_apply, algov_fast_switch,
      algov_deferred_update, algov_update_next_freq.
    rewrite rate_limit_up by assumption.
    destruct (fast_switch_enabled (policy sg)); reflexivity.
  - intros Hf Hd.
    assert (Hrl : algov_up_down_rate_limit sg time max_freq = false).
    { unfold algov_up_down_rate_limit.
      destruct (Z.ltb_spec (s64 (time - last_freq_update_time sg))
                  (up_rate_delay_ns sg)); [lia|].
      destruct (Z.ltb_spec max_freq (next_freq sg)); [lia|].
      rewrite andb_false_r. reflexivity. }
    unfold algov_apply, algov_fast_switch, algov_deferred_update.
    rewrite update_next_freq_up by assumption.
    destruct (fast_switch_enabled (policy sg)); simpl;
      [reflexivity|].
    destruct (work_in_progress sg); reflexivity.
Qed.

End SinglePath.

Lemma update_single_work_in_progress_witness :
  algov_update_single example_env example_tunables
    (set_work_in_progress true example_policy) (example_cpu 0)
    1000000000 4 0
  = (set_work_in_progress true example_policy,
     set_last_update 1000000000 (example_cpu 0), []).
Proof.
  exact (proj1 (update_single_work_in_progress example_env example_tunables
                  (set_work_in_progress true example_policy) (example_cpu 0)
                  1000000000 4 0 eq_refl)).
Defined.

Lemma update_single_busy_keeps_freq_witness :
  let r := algov_update_single example_env example_tunables
             (example_policy_at 1500000) example_busy_cpu 1000000000 0 0 in
  next_freq (fst (fst r)) = 1500000 /\ cached_raw_freq (fst (fst r)) = 0
  /\ snd r = [].
Proof.
  pose proof (update_single_busy_keeps_freq example_env example_tunables
                (example_policy_at 1500000) example_busy_cpu 1000000000 0 0
                eq_refl eq_refl eq_refl eq_refl eq_refl eq_refl
                ltac:(vm_compute; discriminate)) as (_ & E & En & Ec & _).
  cbv zeta. rewrite E. cbn [fst snd]. split; [exact En|].
  split; [exact Ec | reflexivity].
Defined.

Lemma deadline_update_candidate_witness :
  next_freq (fst (fst (algov_update_single example_env example_tunables
                         example_policy (example_cpu 0) 1000000000 2 0)))
  = cpuinfo_max_freq (policy example_policy).
Proof.
  pose proof (deadline_update_candidate example_env example_tunables
                example_policy (example_cpu 0) example_store 0%nat
                1000000000 2 0 eq_refl) as (_ & H2 & _ & _ & _ & H6).
  destruct (H2 eq_refl eq_refl) as (_ & E & _). rewrite E.
  apply H6; vm_compute; [reflexivity | discriminate].
Defined.

(** C2: the deadline rule of the specification fails on the code: a
    deadline update 1us after the start is rejected by the rate limiter
    although a forced refresh lets it past the gate; one arriving while
    work is in progress is dropped; one on a shared policy 1us after the
    start stops at the gate. [next_freq] stays 0 each time. *)
Lemma deadline_rule_counterexample :
  ~ spec_deadline_single example_env example_tunables
      (set_need_freq_update true example_policy) (example_cpu 0) 1000 2 0
  /\ ~ spec_deadline_single example_env example_tunables
         (set_work_in_progress true example_policy) (example_cpu 0)
         1000000000 2 0
  /\ ~ spec_deadline_shared example_env example_tunables example_policy
         example_store 0 1000 2.
Proof.
  repeat split; intros H; specialize (H eq_refl); vm_compute in H;
    discriminate.
Qed.

(** ** The sysfs store handlers *)

Section Sysfs.

Variable K : kernel_env.

Lemma call_return {S R : Type} (r : R) (k : stmt S R R) (s : S) :
  call (seq (A := unit) (c_return r) (fun _ => k)) s = (r, s).
Proof. reflexivity. Qed.

(** C8. A write to [up_rate_limit_us] or [down_rate_limit_us] returns the
    count it was given, a [size_t] below 2^63 seen as an [ssize_t], and
    leaves the tunables and the delays of every attached policy as they
    were, whatever the buffer holds. *)
Theorem rate_limit_store_ignored (a : gov_attr_set) (buf : string)
  (count : Z) :
  0 <= count < 2 ^ 63 ->
  call (up_rate_limit_us_store K buf count) a = (count, a)
  /\ call (down_rate_limit_us_store K buf count) a = (count, a).
Proof.
  intros Hc. unfold up_rate_limit_us_store, down_rate_limit_us_store.
  rewrite !call_return. rewrite s64_small by lia. split; reflexivity.
Qed.

End Sysfs.

Lemma rate_limit_store_ignored_witness :
  call (up_rate_limit_us_store example_env "1000" 5) example_attr_set
  = (5, example_attr_set)
  /\ call (down_rate_limit_us_store example_env "40000" 6) example_attr_set
     = (6, example_attr_set).
Proof.
  split.
  - apply (rate_limit_store_ignored example_env example_attr_set "1000" 5).
    lia.
  - apply (rate_limit_store_ignored example_env example_attr_set "40000" 6).
    lia.
Defined.

(** ** The aggregation over a shared policy *)

Section SharedScan.

Variable K : kernel_env.
Variable sg : algov_policy.
Implicit Types (c : algov_cpu) (st : per_cpu_store) (cpus : list nat).

Lemma iowait_boost_decay c u m :
  fst (fst (algov_iowait_boost sg c u m)) = boost_decay sg c.
Proof.
  unfold boost_decay, algov_iowait_boost. cbv zeta.
  destruct (iowait_boost c =? 0); [reflexivity|].
  destruct (iowait_boost_pending c).
  - repeat break_if; reflexivity.
  - destruct (iowait_boost (set_iowait_boost (Z.shiftr (iowait_boost c) 1) c)
              <? policy_min (policy sg)); [reflexivity|].
    repeat break_if; reflexivity.
Qed.

Lemma per_cpu_set_same st j c : per_cpu_set st j c j = c.
Proof. unfold per_cpu_set. rewrite Nat.eqb_refl. reflexivity. Qed.

Lemma per_cpu_set_other st j c k : k <> j -> per_cpu_set st j c k = st k.
Proof.
  intros H. unfold per_cpu_set.
  destruct (Nat.eqb_spec k j); [contradiction | reflexivity].
Qed.

Lemma map_per_cpu_set st j c cpus :
  ~ In j cpus -> map (per_cpu_set st j c) cpus = map st cpus.
Proof.
  intros H. apply map_ext_in. intros k Hk. apply per_cpu_set_other.
  intros ->. contradiction.
Qed.

(** One round of the scan on a stale member. *)
Lemma shared_scan_stale p time j cpus st u m su busy :
  stale K time (st j) = true ->
  algov_shared_scan K sg p time (j :: cpus) st u m su busy
  = algov_shared_scan K sg p time cpus
      (per_cpu_set st j
         (set_iowait_boost_pending false (set_iowait_boost 0 (st j))))
      u m su busy.
Proof.
  intros Hs. unfold stale in Hs. simpl. rewrite Hs. reflexivity.
Qed.

(** One round of the scan on a member that is neither stale nor a
    deadline one. *)
Lemma shared_scan_live p time j cpus st u m su busy :
  stale K time (st j) = false ->
  flag_set (flags (st j)) (SCHED_CPUFREQ_DL K) = false ->
  algov_shared_scan K sg p time (j :: cpus) st u m su busy
  = algov_shared_scan K sg p time cpus
      (per_cpu_set st j (boost_decay sg (snd (algov_cpu_is_busy K (st j)))))
      (fst (pair_step K sg (u, m) (st j)))
      (snd (pair_step K sg (u, m) (st j)))
      (if Nat.eqb j p then util (st j) else su)
      (busy || fst (algov_cpu_is_busy K (st j))).
Proof.
  intros Hs Hdl. unfold stale in Hs. simpl. rewrite Hs, Hdl.
  unfold pair_step.
  destruct (u64 (util (st j) * m) >? u64 (max (st j) * u));
    match goal with
    | |- context [algov_iowait_boost sg ?c ?a ?b] =>
      pose proof (iowait_boost_decay c a b) as E;
      destruct (algov_iowait_boost sg c a b) as [[c2 u2] m2]
    end; simpl in E; subst c2; reflexivity.
Qed.

(** A scan that meets no deadline member among those it does not skip
    runs to its end: its pair is the fold of [pair_step] over the live
    members, its busy flag the disjunction of their busy tests, and every
    member is left as [member_after] says. *)
Lemma shared_scan_done p time cpus : forall st u m su busy,
  NoDup cpus ->
  (forall j, In j cpus -> stale K time (st j) = false ->
             flag_set (flags (st j)) (SCHED_CPUFREQ_DL K) = false) ->
  exists su' st',
    algov_shared_scan K sg p time cpus st u m su busy
    = Scan_done
        (fst (fold_left (pair_step K sg) (live K time st cpus) (u, m)))
        (snd (fold_left (pair_step K sg) (live K time st cpus) (u, m)))
        su'
        (busy || existsb (fun c => fst (algov_cpu_is_busy K c))
                   (live K time st cpus))
        st'
    /\ (forall k, ~ In k cpus -> st' k = st k)
    /\ (forall j, In j cpus -> st' j = member_after K sg time (st j)).
Proof.
  induction cpus as [| j cpus IH]; intros st u m su busy Hnd Hdl.
  - exists su, st. simpl. rewrite orb_false_r. repeat split.
    intros j [].
  - inversion Hnd as [| j' l Hj Hnd']; subst.
    destruct (stale K time (st j)) eqn:Hs.
    + rewrite shared_scan_stale by assumption.
      set (st1 := per_cpu_set st j _).
      assert (El : live K time st (j :: cpus) = live K time st1 cpus).
      { unfold live. simpl. rewrite Hs. simpl. unfold st1.
        rewrite map_per_cpu_set by assumption. reflexivity. }
      rewrite El.
      destruct (IH st1 u m su busy Hnd') as (su' & st' & E & Hf & Hm).
      { intros k Hk. unfold st1. rewrite per_cpu_set_other.
        - apply Hdl. right. exact Hk.
        - intros ->. contradiction. }
      exists su', st'. split; [exact E|]. split.
      * intros k Hk. rewrite Hf by (intros Hin; apply Hk; right; exact Hin).
        unfold st1. apply per_cpu_set_other. intros ->. apply Hk. left.
        reflexivity.
      * intros k [<- | Hk].
        -- rewrite Hf by assumption. unfold st1. rewrite per_cpu_set_same.
           unfold member_after. rewrite Hs. reflexivity.
        -- rewrite Hm by assumption. unfold st1. rewrite per_cpu_set_other.
           ++ reflexivity.
           ++ intros ->. contradiction.
    + rewrite shared_scan_live
        by (assumption || (apply Hdl; [left; reflexivity | assumption])).
      set (st1 := per_cpu_set st j _).
      assert (El : live K time st (j :: cpus)
                   = st j :: live K time st1 cpus).
      { unfold live. simpl. rewrite Hs. simpl. unfold st1.
        rewrite map_per_cpu_set by assumption. reflexivity. }
      rewrite El. cbn [fold_left existsb].
      destruct (pair_step K sg (u, m) (st j)) as [u1 m1] eqn:Ep.
      cbn [fst snd].
      destruct (IH st1 u1 m1 (if Nat.eqb j p then util (st j) else su)
                  (busy || fst (algov_cpu_is_busy K (st j))) Hnd')
        as (su' & st' & E & Hf & Hm).
      { intros k Hk. unfold st1. rewrite per_cpu_set_other.
        - apply Hdl. right. exact Hk.
        - intros ->. contradiction. }
      exists su', st'. split; [rewrite E, orb_assoc; reflexivity|]. split.
      * intros k Hk. rewrite Hf by (intros Hin; apply Hk; right; exact Hin).
        unfold st1. apply per_cpu_set_other. intros ->. apply Hk. left.
        reflexivity.
      * intros k [<- | Hk].
        -- rewrite Hf by assumption. unfold st1. rewrite per_cpu_set_same.
           unfold member_after. rewrite Hs. reflexivity.
        -- rewrite Hm by assumption. unfold st1. rewrite per_cpu_set_other.
           ++ reflexivity.
           ++ intros ->. contradiction.
Qed.

(** *** Comparing ratios by cross-multiplication *)

Lemma mul_32_64 (a b : Z) :
  0 <= a < 2 ^ 32 -> 0 <= b < 2 ^ 32 -> 0 <= a * b < 2 ^ 64.
Proof.
  intros Ha Hb. change (2 ^ 64) with (2 ^ 32 * 2 ^ 32). nia.
Qed.

Lemma u64_mul (a b : Z) :
  0 <= a < 2 ^ 32 -> 0 <= b < 2 ^ 32 -> u64 (a * b) = a * b.
Proof. intros Ha Hb. apply u64_small, mul_32_64; assumption. Qed.

Lemma ratio_le_trans (a b c d e f : Z) :
  0 < b -> 0 < d -> 0 < f ->
  a * d <= c * b -> c * f <= e * d -> a * f <= e * b.
Proof.
  intros Hb Hd Hf H1 H2.
  apply Z.mul_le_mono_pos_r with (p := d); [assumption|].
  assert (E1 : a * d * f <= c * b * f)
    by (apply Z.mul_le_mono_nonneg_r; lia).
  assert (E2 : c * f * b <= e * d * b)
    by (apply Z.mul_le_mono_nonneg_r; lia).
  lia.
Qed.

Lemma ratio_le_lt_trans (a b c d e f : Z) :
  0 < b -> 0 < d -> 0 < f ->
  a * d <= c * b -> c * f < e * d -> a * f < e * b.
Proof.
  intros Hb Hd Hf H1 H2.
  apply Z.mul_lt_mono_pos_r with (p := d); [assumption|].
  assert (E1 : a * d * f <= c * b * f)
    by (apply Z.mul_le_mono_nonneg_r; lia).
  assert (E2 : c * f * b < e * d * b)
    by (apply Z.mul_lt_mono_pos_r; lia).
  lia.
Qed.

Lemma ratio_lt_le_trans (a b c d e f : Z) :
  0 < b -> 0 < d -> 0 < f ->
  a * d < c * b -> c * f <= e * d -> a * f < e * b.
Proof.
  intros Hb Hd Hf H1 H2.
  apply Z.mul_lt_mono_pos_r with (p := d); [assumption|].
  assert (E1 : a * d * f < c * b * f)
    by (apply Z.mul_lt_mono_pos_r; lia).
  assert (E2 : c * f * b <= e * d * b)
    by (apply Z.mul_le_mono_nonneg_r; lia).
  lia.
Qed.

(** *** The boost left in a member and the pair it leaves *)

Lemma boost_decay_boost c :
  iowait_boost (boost_decay sg c)
  = (if iowait_boost c =? 0 then 0
     else if iowait_boost_pending c then iowait_boost c
     else if Z.shiftr (iowait_boost c) 1 <? policy_min (policy sg) then 0
     else Z.shiftr (iowait_boost c) 1)
  /\ iowait_boost_max (boost_decay sg c) = iowait_boost_max c.
Proof.
  unfold boost_decay, algov_iowait_boost. cbv zeta.
  destruct (iowait_boost c =? 0) eqn:E0; [rewrite <- Z.eqb_eq; auto|].
  destruct (iowait_boost_pending c).
  - break_if; split; reflexivity.
  - cbn [iowait_boost set_iowait_boost].
    destruct (Z.shiftr (iowait_boost c) 1 <? policy_min (policy sg));
      [split; reflexivity|].
    break_if; split; reflexivity.
Qed.

Lemma boost_decay_range c :
  0 <= iowait_boost c < 2 ^ 32 ->
  0 <= iowait_boost (boost_decay sg c) < 2 ^ 32.
Proof.
  intros Hb. rewrite (proj1 (boost_decay_boost c)).
  rewrite shiftr_1_half.
  assert (0 <= iowait_boost c / 2 <= iowait_boost c).
  { split; [apply Z.div_pos; lia|]. apply Z.div_le_upper_bound; lia. }
  repeat break_if; lia.
Qed.

(** The pair [algov_iowait_boost] leaves is the one it was given, which
    then is no lower than the boost pair, or the boost pair, which then
    is strictly higher. *)
Lemma iowait_boost_pair c u m :
  pair_ok (u, m) ->
  0 <= iowait_boost c < 2 ^ 32 -> 0 < iowait_boost_max c < 2 ^ 32 ->
  let r := algov_iowait_boost sg c u m in
  let b := iowait_boost (boost_decay sg c) in
  ((snd (fst r), snd r) = (u, m) /\ b * m <= iowait_boost_max c * u)
  \/ ((snd (fst r), snd r) = (b, iowait_boost_max c)
      /\ u * iowait_boost_max c < m * b).
Proof.
  intros [Hu Hm] Hb Hbm r b. cbn [fst snd] in Hu, Hm.
  pose proof (boost_decay_range c Hb) as Hb'. fold b in Hb'.
  pose proof (proj1 (boost_decay_boost c)) as Eb. fold b in Eb.
  subst r. unfold algov_iowait_boost. cbv zeta.
  destruct (iowait_boost c =? 0).
  { left. split; [reflexivity|]. rewrite Eb. nia. }
  destruct (iowait_boost_pending c).
  - cbn [iowait_boost iowait_boost_max set_iowait_boost_pending].
    rewrite <- Eb. rewrite !u64_mul by lia.
    destruct (Z.ltb_spec (u * iowait_boost_max c) (m * b)); cbn [fst snd].
    + right. split; [reflexivity | assumption].
    + left. split; [reflexivity | lia].
  - cbn [iowait_boost iowait_boost_max set_iowait_boost].
    destruct (Z.shiftr (iowait_boost c) 1 <? policy_min (policy sg)).
    { left. split; [reflexivity|]. rewrite Eb. nia. }
    rewrite <- Eb. rewrite !u64_mul by lia.
    destruct (Z.ltb_spec (u * iowait_boost_max c) (m * b)); cbn [fst snd].
    + right. split; [reflexivity | assumption].
    + left. split; [reflexivity | lia].
Qed.

Lemma busy_test_boost c :
  iowait_boost (snd (algov_cpu_is_busy K c)) = iowait_boost c
  /\ iowait_boost_max (snd (algov_cpu_is_busy K c)) = iowait_boost_max c
  /\ iowait_boost (boost_decay sg (snd (algov_cpu_is_busy K c)))
     = iowait_boost (boost_decay sg c).
Proof.
  split; [reflexivity|]. split; [reflexivity|].
  rewrite (proj1 (boost_decay_boost c)).
  rewrite (proj1 (boost_decay_boost (snd (algov_cpu_is_busy K c)))).
  reflexivity.
Qed.

(** One round: the running pair does not go down, and ends no lower than
    the pair of the member and than the boost pair left in the member. *)
Lemma pair_step_dominates acc c :
  pair_ok acc -> member_ok c ->
  let r := pair_step K sg acc c in
  pair_ok r /\ fst acc * snd r <= fst r * snd acc
  /\ util c * snd r <= max c * fst r
  /\ iowait_boost (boost_decay sg c) * snd r <= iowait_boost_max c * fst r.
Proof.
  destruct acc as [u m]. intros [Hu Hm] (Hcu & Hcm & Hcb & Hcbm).
  cbn [fst snd] in Hu, Hm. intros r.
  destruct (busy_test_boost c) as (E1 & E2 & E3).
  set (c' := snd (algov_cpu_is_busy K c)) in *.
  pose proof (boost_decay_range c Hcb) as Hb.
  set (b := iowait_boost (boost_decay sg c)) in *.
  assert (Hcmp : exists u1 m1,
    (if u64 (util c * m) >? u64 (max c * u) then (util c, max c) else (u, m))
    = (u1, m1)
    /\ pair_ok (u1, m1) /\ u * m1 <= u1 * m /\ util c * m1 <= max c * u1).
  { rewrite !u64_mul by lia.
    destruct (Z.gtb_spec (util c * m) (max c * u)).
    - exists (util c), (max c). unfold pair_ok. cbn [fst snd].
      repeat split; lia.
    - exists u, m. unfold pair_ok. cbn [fst snd]. repeat split; lia. }
  destruct Hcmp as (u1 & m1 & Ecmp & [Hu1 Hm1] & Hacc & Hmem).
  cbn [fst snd] in Hu1, Hm1.
  assert (Er : r = (snd (fst (algov_iowait_boost sg c' u1 m1)),
                    snd (algov_iowait_boost sg c' u1 m1))).
  { subst r. unfold pair_step. rewrite Ecmp. fold c'.
    destruct (algov_iowait_boost sg c' u1 m1) as [[d u2] m2]. reflexivity. }
  destruct (iowait_boost_pair c' u1 m1) as [[Ep Hd] | [Ep Hd]].
  { split; assumption. }
  { rewrite E1. assumption. }
  { rewrite E2. assumption. }
  - rewrite E3, E2 in Hd. fold b in Hd. rewrite Er, Ep.
    unfold pair_ok. cbn [fst snd]. repeat split; lia.
  - rewrite E3, E2 in Hd, Ep. fold b in Hd, Ep. rewrite Er, Ep.
    unfold pair_ok. cbn [fst snd].
    assert (0 < b) by nia.
    split; [split; lia|]. split; [|split; [|lia]].
    + pose proof (ratio_le_lt_trans u m u1 m1 b (iowait_boost_max c)).
      lia.
    + pose proof (ratio_le_lt_trans (util c) (max c) u1 m1 b
                    (iowait_boost_max c)).
      lia.
Qed.

(** The fold: the running pair ends no lower than the pair it started
    from, than the pair of every member, and than the boost pair left in
    every member. *)
Lemma fold_dominates (cs : list algov_cpu) : forall acc,
  pair_ok acc -> Forall member_ok cs ->
  let r := fold_left (pair_step K sg) cs acc in
  pair_ok r /\ fst acc * snd r <= fst r * snd acc
  /\ forall c, In c cs ->
       util c * snd r <= max c * fst r
       /\ iowait_boost (boost_decay sg c) * snd r
          <= iowait_boost_max c * fst r.
Proof.
  induction cs as [| h cs IH]; intros acc Ha Hcs; cbn [fold_left].
  - split; [assumption|]. split; [lia|]. intros c [].
  - inversion Hcs as [| h' l Hh Hcs']; subst.
    destruct (pair_step_dominates acc h Ha Hh) as (Hr1 & Hacc & Hhu & Hhb).
    set (r1 := pair_step K sg acc h) in *.
    destruct (IH r1 Hr1 Hcs') as (Hr & Hstep & Hall).
    set (r := fold_left (pair_step K sg) cs r1) in *.
    destruct Ha as [_ Ha], Hr1 as [_ Hr1], Hh as (_ & Hm & _ & Hbm).
    pose proof (proj2 Hr) as Hr2.
    split; [assumption|]. split.
    + pose proof (ratio_le_trans (fst acc) (snd acc) (fst r1) (snd r1)
                    (fst r) (snd r)). lia.
    + intros c [<- | Hc]; [|apply Hall; assumption]. split.
      * pose proof (ratio_le_trans (util h) (max h) (fst r1) (snd r1)
                      (fst r) (snd r)). lia.
      * pose proof (ratio_le_trans (iowait_boost (boost_decay sg h))
                      (iowait_boost_max h) (fst r1) (snd r1)
                      (fst r) (snd r)). lia.
Qed.

Lemma pair_step_no_boost u m c :
  iowait_boost c = 0 -> pair_ok (u, m) -> member_ok c ->
  pair_step K sg (u, m) c
  = if util c * m >? max c * u then (util c, max c) else (u, m).
Proof.
  intros E [Hu Hm] (Hcu & Hcm & _). cbn [fst snd] in Hu, Hm.
  unfold pair_step. rewrite !u64_mul by lia.
  destruct (util c * m >? max c * u); unfold algov_iowait_boost;
    rewrite (proj1 (busy_test_boost c)), E; reflexivity.
Qed.

(** Without boosts the fold keeps the first member that reaches the
    greatest ratio, if one beats the pair it started from. *)
Lemma fold_first_max (cs : list algov_cpu) : forall u m,
  pair_ok (u, m) -> Forall member_ok cs ->
  (forall c, In c cs -> iowait_boost c = 0) ->
  let r := fold_left (pair_step K sg) cs (u, m) in
  (r = (u, m) /\ forall x, In x cs -> util x * m <= max x * u)
  \/ exists pre c post,
       cs = pre ++ c :: post /\ r = (util c, max c)
       /\ u * max c < util c * m
       /\ (forall x, In x pre -> util x * max c < max x * util c)
       /\ (forall x, In x post -> util x * max c <= max x * util c).
Proof.
  induction cs as [| h cs IH]; intros u m Ha Hcs Hnb; cbn [fold_left].
  - left. split; [reflexivity | intros x []].
  - inversion Hcs as [| h' l Hh Hcs']; subst.
    assert (Hmem : forall pre c post, cs = pre ++ c :: post -> 0 < max c).
    { intros pre c post E. rewrite Forall_forall in Hcs'.
      apply (Hcs' c). rewrite E. apply in_elt. }
    rewrite pair_step_no_boost
      by (assumption || (apply Hnb; left; reflexivity)).
    assert (Hnb' : forall c, In c cs -> iowait_boost c = 0)
      by (intros c Hc; apply Hnb; right; exact Hc).
    pose proof Hh as (Hhu & Hhm & _). destruct Ha as [Hu Hm].
    cbn [fst snd] in Hu, Hm.
    destruct (Z.gtb_spec (util h * m) (max h * u)) as [Hgt | Hle].
    + destruct (IH (util h) (max h)) as
        [[Er Hall] | (pre & c & post & Ecs & Er & Hlt & Hpre & Hpost)];
        [split; assumption | assumption | assumption | |].
      * right. exists [], h, cs. split; [reflexivity|].
        split; [exact Er|]. split; [lia|]. split; [intros x []|].
        intros x Hx. specialize (Hall x Hx). lia.
      * right. exists (h :: pre), c, post.
        split; [simpl; rewrite Ecs; reflexivity|].
        split; [exact Er|]. pose proof (Hmem pre c post Ecs) as Hc.
        split; [|split; [|exact Hpost]].
        -- pose proof (ratio_lt_le_trans u m (util h) (max h)
                         (util c) (max c)). lia.
        -- intros x [<- | Hx]; [lia | apply Hpre; assumption].
    + destruct (IH u m) as
        [[Er Hall] | (pre & c & post & Ecs & Er & Hlt & Hpre & Hpost)];
        [split; assumption | assumption | assumption | |].
      * left. split; [exact Er|].
        intros x [<- | Hx]; [lia | apply Hall; assumption].
      * right. exists (h :: pre), c, post.
        split; [simpl; rewrite Ecs; reflexivity|].
        split; [exact Er|]. pose proof (Hmem pre c post Ecs) as Hc.
        split; [exact Hlt|]. split; [|exact Hpost].
        intros x [<- | Hx]; [|apply Hpre; assumption].
        pose proof (ratio_le_lt_trans (util h) (max h) u m
                      (util c) (max c)). lia.
Qed.

Lemma live_members time st cpus c :
  In c (live K time st cpus) ->
  exists j, In j cpus /\ c = st j /\ stale K time (st j) = false.
Proof.
  unfold live. rewrite filter_In, in_map_iff.
  intros [(j & <- & Hj) Hs]. exists j. repeat split; [assumption|].
  destruct (stale K time (st j)); [discriminate | reflexivity].
Qed.

(** In a member the scan does not skip, the saved idle-entry count is
    overwritten with the count of the processor running the scan. *)
Lemma member_after_saved_idle_calls time c :
  stale K time c = false ->
  saved_idle_calls (member_after K sg time c) = tick_nohz_get_idle_calls K
  /\ previous_util (member_after K sg time c) = previous_util c.
Proof.
  intros Hs. unfold member_after. rewrite Hs.
  unfold boost_decay, algov_iowait_boost, algov_cpu_is_busy. cbv zeta.
  cbn [snd]. repeat break_if; split; reflexivity.
Qed.

(** C6, as the code has it. A scan over a mask without repetition that
    meets no deadline member among the non-stale ones, with values that fit
    32 bits and positive capacities, runs to its end. The running pair
    starts at [(0, 1)]; each non-stale member in scan order first replaces
    it when [j_util * max > j_max * util], so that an earlier member keeps
    its place on a tie, and then has its own io-wait boost applied to the
    running pair, whether or not it was the one selected. The pair the scan
    ends with is therefore no lower than the pair of any member and than
    the boost pair left in any member; when no member has a boost it is the
    pair of the first member with the greatest ratio. The busy flag is the
    disjunction of the busy tests of the members, and the frequency
    returned is the one [get_next_freq] gives for that pair and flag. *)
Theorem shared_scan_aggregate p time cpus st :
  NoDup cpus ->
  (forall j, In j cpus -> stale K time (st j) = false ->
     flag_set (flags (st j)) (SCHED_CPUFREQ_DL K) = false
     /\ member_ok (st j)) ->
  let r := algov_shared_scan K sg p time cpus st 0 1 0 false in
  let cs := live K time st cpus in
  let busy := existsb (fun c => fst (algov_cpu_is_busy K c)) cs in
  exists u m,
    scan_pair r = Some (u, m)
    /\ (u, m) = fold_left (pair_step K sg) cs (0, 1)
    /\ scan_busy r = Some busy
    /\ (forall c, In c cs ->
          util c * m <= max c * u
          /\ iowait_boost (boost_decay sg c) * m <= iowait_boost_max c * u)
    /\ ((forall c, In c cs -> iowait_boost c = 0) -> first_max cs (u, m))
    /\ (forall j, In j cpus -> scan_store r j = member_after K sg time (st j))
    /\ (cpus = policy_cpus (policy sg) ->
        fst (fst (algov_next_freq_shared K sg st p time))
        = fst (get_next_freq K sg u m busy)).
Proof.
  intros Hnd Hmem r cs busy.
  destruct (shared_scan_done p time cpus st 0 1 0 false Hnd)
    as (su' & st' & E & _ & Hafter).
  { intros j Hj Hs. apply (Hmem j Hj Hs). }
  fold cs in E. cbn [orb] in E. fold busy in E. fold r in E.
  assert (Hcs : Forall member_ok cs).
  { rewrite Forall_forall. intros c Hc.
    destruct (live_members time st cpus c Hc) as (j & Hj & -> & Hs).
    apply (Hmem j Hj Hs). }
  assert (H01 : pair_ok (0, 1)) by (unfold pair_ok; cbn [fst snd]; lia).
  destruct (fold_left (pair_step K sg) cs (0, 1)) as [u m] eqn:Ef.
  cbn [fst snd] in E. exists u, m. rewrite E. cbn [scan_pair scan_busy
                                                   scan_store].
  split; [reflexivity|]. split; [reflexivity|]. split; [reflexivity|].
  split; [|split; [|split]].
  - pose proof (fold_dominates cs (0, 1) H01 Hcs) as (_ & _ & Hall).
    cbv zeta in Hall. rewrite Ef in Hall. exact Hall.
  - intros Hnb.
    pose proof (fold_first_max cs 0 1 H01 Hcs Hnb) as Hfm.
    cbv zeta in Hfm. rewrite Ef in Hfm. unfold first_max.
    destruct Hfm as [[Er Hall] | (pre & c & post & Ecs & Er & _ & Hpre & Hpost)].
    + left. split; [exact Er|]. intros x Hx. specialize (Hall x Hx).
      rewrite Forall_forall in Hcs. destruct (Hcs x Hx) as (Hxu & _). lia.
    + right. exists pre, c, post. repeat split; assumption.
  - exact Hafter.
  - intros Ecpus. unfold algov_next_freq_shared. rewrite <- Ecpus.
    fold r. rewrite E.
    destruct (get_next_freq K sg u m busy) as [f s]. reflexivity.
Qed.

End SharedScan.

Lemma shared_scan_aggregate_witness :
  first_max (live example_env 1000000000 example_plain_store [0; 1]%nat)
    (100, 1024)
  /\ scan_busy (algov_shared_scan example_env example_policy 0 1000000000
                  [0; 1]%nat example_plain_store 0 1 0 false)
     = Some false.
Proof.
  assert (Hnd : NoDup [0; 1]%nat).
  { repeat constructor; simpl; intuition discriminate. }
  destruct (shared_scan_aggregate example_env example_policy 0 1000000000
              [0; 1]%nat example_plain_store Hnd)
    as (u & m & _ & Ef & Eb & _ & Hfm & _).
  { intros j [<- | [<- | []]] _; (split; [reflexivity|]);
      unfold member_ok; simpl; lia. }
  vm_compute in Ef. injection Ef as -> ->.
  split; [|rewrite Eb; reflexivity].
  apply Hfm. intros c [<- | [<- | []]]; reflexivity.
Defined.

(** C6: the aggregation rule of the specification fails on the code: CPU
    0, at 100 of 1024, has the greatest ratio and no boost, yet the scan
    ends with the boost pair of CPU 1, which was not selected. *)
Lemma aggregation_rule_counterexample :
  ~ spec_aggregation_rule example_env example_policy 0 1000000000
      example_shared_store [0; 1]%nat.
Proof.
  unfold spec_aggregation_rule. vm_compute. discriminate.
Qed.

(** C3 on the code: an aggregation triggered by CPU 0 overwrites the idle
    count saved in CPU 1, from 3 to the count 7 of the processor running
    the scan, so that the frame rule of the specification fails. *)
Theorem next_freq_shared_overwrites_sibling :
  saved_idle_calls (example_shared_store 1%nat) = 3
  /\ saved_idle_calls
       (snd (algov_next_freq_shared example_env example_policy
               example_shared_store 0 1000000000) 1%nat) = 7
  /\ ~ spec_classifier_frame example_env example_policy
         example_shared_store 0 1000000000.
Proof.
  split; [reflexivity|]. split; [reflexivity|].
  intros H. destruct (H 1%nat) as [E _].
  - discriminate.
  - right. left. reflexivity.
  - vm_compute in E. discriminate.
Qed.

(** ** The io-wait booster *)

Section Booster.

Variable K : kernel_env.
Implicit Types (sg : algov_policy) (c : algov_cpu) (tun : algov_tunables).

Lemma clamp_min (a b : Z) : (if a >? b then b else a) = Z.min a b.
Proof. destruct (Z.gtb_spec a b); lia. Qed.

Lemma nested_if {A : Type} (b1 b2 : bool) (x y : A) :
  (if b1 then if b2 then x else y else y) = if b1 && b2 then x else y.
Proof. destruct b1; reflexivity. Qed.

(** C7, as the code has it. With io-wait boosting disabled in the
    tunables [algov_set_iowait_boost] changes nothing. With it enabled the
    function first clears a nonzero boost and its pending mark when more
    than a tick has gone by since the last update of the processor; then,
    if the flags stored in the processor carry io-wait, it leaves a pending
    boost as it is, and otherwise marks the boost pending and doubles it in
    32 bits, clamped to the maximum, or seeds it with the policy minimum
    when it is zero. [algov_iowait_boost] leaves a zero boost alone; it
    clears a pending mark without decay; without a pending mark it halves
    the boost and zeroes it when the half is below the policy minimum. *)
Theorem iowait_boost_protocol tun sg c time (u m : Z) :
  let c' := algov_set_iowait_boost K tun sg c time in
  let gone :=
    negb (iowait_boost c =? 0)
    && (s64 (time - last_update c) >? TICK_NSEC K) in
  let io := flag_set (flags c) (SCHED_CPUFREQ_IOWAIT K) in
  let d := fst (fst (algov_iowait_boost sg c u m)) in
  (iowait_boost_enable tun = false -> c' = c)
  /\ (iowait_boost_enable tun = true ->
      (gone = true -> io = false ->
       iowait_boost_pending c' = false /\ iowait_boost c' = 0)
      /\ (gone = true -> io = true ->
          iowait_boost_pending c' = true
          /\ iowait_boost c' = policy_min (policy sg))
      /\ (gone = false -> io = false -> c' = c)
      /\ (gone = false -> io = true -> iowait_boost_pending c = true ->
          c' = c)
      /\ (gone = false -> io = true -> iowait_boost_pending c = false ->
          iowait_boost c = 0 ->
          iowait_boost_pending c' = true
          /\ iowait_boost c' = policy_min (policy sg))
      /\ (gone = false -> io = true -> iowait_boost_pending c = false ->
          iowait_boost c <> 0 ->
          iowait_boost_pending c' = true
          /\ iowait_boost c'
             = Z.min (u32 (2 * iowait_boost c)) (iowait_boost_max c)))
  /\ (iowait_boost c = 0 -> d = c)
  /\ (iowait_boost c <> 0 -> iowait_boost_pending c = true ->
      iowait_boost_pending d = false /\ iowait_boost d = iowait_boost c)
  /\ (iowait_boost c <> 0 -> iowait_boost_pending c = false ->
      iowait_boost_pending d = false
      /\ iowait_boost d
         = if iowait_boost c / 2 <? policy_min (policy sg) then 0
           else iowait_boost c / 2).
Proof.
  intros c' gone io d. subst c' gone io d.
  split; [|split; [|split; [|split]]].
  - intros He. unfold algov_set_iowait_boost. rewrite He. reflexivity.
  - intros He. unfold algov_set_iowait_boost. rewrite He.
    cbv zeta. cbn [negb]. rewrite nested_if.
    split; [|split; [|split; [|split; [|split]]]].
    + intros Hg Hio. rewrite Hg. cpu_fields. rewrite Hio.
      split; reflexivity.
    + intros Hg Hio. rewrite Hg. cpu_fields. rewrite Hio.
      split; reflexivity.
    + intros Hg Hio. rewrite Hg, Hio. reflexivity.
    + intros Hg Hio Hp. rewrite Hg, Hio, Hp. reflexivity.
    + intros Hg Hio Hp H0. rewrite Hg, Hio, Hp. cpu_fields. rewrite H0.
      split; reflexivity.
    + intros Hg Hio Hp H0. rewrite Hg, Hio, Hp. cpu_fields.
      destruct (Z.eqb_spec (iowait_boost c) 0); [contradiction|].
      cbn [negb]. rewrite Z.shiftl_mul_pow2 by lia.
      replace (iowait_boost c * 2 ^ 1) with (2 * iowait_boost c) by lia.
      rewrite <- clamp_min.
      destruct (u32 (2 * iowait_boost c) >? iowait_boost_max c);
        split; reflexivity.
  - intros H0. unfold algov_iowait_boost. rewrite H0. reflexivity.
  - intros H0 Hp. unfold algov_iowait_boost.
    destruct (Z.eqb_spec (iowait_boost c) 0); [contradiction|].
    rewrite Hp. cbv zeta. break_if; split; reflexivity.
  - intros H0 Hp. unfold algov_iowait_boost.
    destruct (Z.eqb_spec (iowait_boost c) 0); [contradiction|].
    rewrite Hp. cbv zeta. cpu_fields. rewrite shiftr_1_half.
    destruct (iowait_boost c / 2 <? policy_min (policy sg)).
    + split; [exact Hp | reflexivity].
    + break_if; split; solve [exact Hp | reflexivity].
Qed.

End Booster.

Lemma iowait_boost_protocol_witness :
  iowait_boost_pending
    (algov_set_iowait_boost example_env example_boost_tunables example_policy
       example_iowait_cpu 1000) = true
  /\ iowait_boost
       (algov_set_iowait_boost example_env example_boost_tunables
          example_policy example_iowait_cpu 1000)
     = policy_min (policy example_policy)
  /\ algov_set_iowait_boost example_env example_tunables example_policy
       example_iowait_cpu 1000 = example_iowait_cpu.
Proof.
  pose proof (iowait_boost_protocol example_env example_boost_tunables
                example_policy example_iowait_cpu 1000 0 1)
    as (_ & He & _).
  destruct (He eq_refl) as (_ & _ & _ & _ & H5 & _).
  destruct (H5 eq_refl eq_refl eq_refl eq_refl) as [Hp Hb].
  split; [exact Hp|]. split; [exact Hb|].
  exact (proj1 (iowait_boost_protocol example_env example_tunables
                  example_policy example_iowait_cpu 1000 0 1) eq_refl).
Defined.

(** C7: the rules of the specification fail on the code. With boosting
    disabled, as [algov_init] leaves it, an update with the io-wait flag
    marks nothing pending. With boosting enabled and more than a tick gone
    by, a pending boost of 600000 does not mean that nothing ramps, and the
    boost is not zero afterwards: it is cleared and seeded anew with the
    policy minimum. *)
Lemma iowait_rules_counterexample :
  ~ spec_iowait_ramp example_env example_tunables example_policy
      example_iowait_cpu 1000
  /\ ~ spec_iowait_ramp example_env example_boost_tunables example_policy
         example_boosted_cpu 20000000
  /\ ~ spec_iowait_stale example_env example_boost_tunables example_policy
         example_boosted_cpu 20000000.
Proof.
  split; [|split].
  - intros H. destruct (H eq_refl) as [_ H2].
    destruct (H2 eq_refl) as [Hp _]. vm_compute in Hp. discriminate.
  - intros H. destruct (H eq_refl) as [H1 _].
    specialize (H1 eq_refl). apply (f_equal iowait_boost) in H1.
    vm_compute in H1. discriminate.
  - intros H. assert (Hs : s64 (20000000 - last_update example_boosted_cpu)
                           > TICK_NSEC example_env) by reflexivity.
    specialize (H Hs). vm_compute in H. discriminate.
Qed.

(** ** More on the rate limiter and the apply path *)

Section LimiterMore.

Implicit Types (sg : algov_policy) (t f : Z).

(** X1. An evaluation keeps [next_freq] between bounds that hold the old value
    and the candidate. When it returns false, [next_freq] and the change
    time are as before; when it returns true, the change time is the time
    of the call and [next_freq] has moved towards the candidate, up to it
    when the candidate is above, and strictly down but not below it when
    the candidate is below. *)
Theorem update_next_freq_bounds sg t f (lo hi : Z) :
  0 <= lo -> hi < 2 ^ 31 ->
  lo <= next_freq sg <= hi -> lo <= f <= hi ->
  let r := algov_update_next_freq sg t f in
  lo <= next_freq (snd r) <= hi
  /\ (fst r = false ->
      next_freq (snd r) = next_freq sg
      /\ last_freq_update_time (snd r) = last_freq_update_time sg)
  /\ (fst r = true ->
      last_freq_update_time (snd r) = t
      /\ ((next_freq sg < f /\ next_freq (snd r) = f)
          \/ (f < next_freq sg /\ f <= next_freq (snd r) < next_freq sg))).
Proof.
  intros Hlo Hhi Hn Hf r. subst r.
  destruct (algov_up_down_rate_limit sg t f) eqn:Hrl.
  { unfold algov_update_next_freq. rewrite Hrl. cbn.
    split; [lia|]. split; [split; reflexivity | discriminate]. }
  destruct (Z.lt_total f (next_freq sg)) as [Hlt | [-> | Hgt]].
  - rewrite update_next_freq_down by assumption.
    cbn [fst snd next_freq last_freq_update_time set_next_freq
         set_last_freq_update_time].
    assert (E : 2 ^ 31 + 2 ^ 31 = 2 ^ 32) by reflexivity.
    rewrite u32_small by lia.
    assert (Hd : f <= (next_freq sg + f) / 2 < next_freq sg).
    { split; [apply Z.div_le_lower_bound | apply Z.div_lt_upper_bound];
        lia. }
    split; [lia|]. split; [discriminate|]. intros _.
    split; [reflexivity|]. right. split; assumption.
  - rewrite update_next_freq_equal. cbn [fst snd].
    split; [lia|]. split; [split; reflexivity | discriminate].
  - rewrite update_next_freq_up by (assumption || lia).
    cbn [fst snd next_freq last_freq_update_time set_next_freq
         set_last_freq_update_time].
    split; [lia|]. split; [discriminate|]. intros _.
    split; [reflexivity|]. left. split; [assumption | reflexivity].
Qed.

Lemma update_next_freq_bounds_witness :
  let r := algov_update_next_freq (example_policy_at 1000) 1000000000 501 in
  300 <= next_freq (snd r) <= 1800
  /\ 501 <= next_freq (snd r) < 1000.
Proof.
  pose proof (update_next_freq_bounds (example_policy_at 1000) 1000000000
                501 300 1800 ltac:(lia) ltac:(lia)
                ltac:(cbn; lia) ltac:(lia)) as (Hb & _ & Ht).
  cbv zeta in *. split; [exact Hb|].
  destruct (Ht eq_refl) as (_ & [[Hup _] | [_ Hdown]]);
    [vm_compute in Hup; discriminate | exact Hdown].
Defined.

(** What the limiter leaves alone. *)
Lemma update_next_freq_frame sg t f :
  let s := snd (algov_update_next_freq sg t f) in
  policy s = policy sg /\ pd s = pd sg
  /\ work_in_progress s = work_in_progress sg
  /\ need_freq_update s = need_freq_update sg
  /\ up_rate_delay_ns s = up_rate_delay_ns sg
  /\ down_rate_delay_ns s = down_rate_delay_ns sg
  /\ min_rate_limit_ns s = min_rate_limit_ns sg.
Proof.
  unfold algov_update_next_freq.
  destruct (algov_up_down_rate_limit sg t f); [repeat split|].
  destruct (next_freq sg =? f); repeat split.
Qed.

(** X2. The evaluation gate skips nothing the limiter would have taken: with
    consistent delays, a time at which [algov_should_update_freq] says no
    for a processor allowed to update is a time at which the rate limiter
    accepts no candidate at all. *)
Theorem gate_closed_limiter_rejects (K : kernel_env) sg t :
  limits_ok sg ->
  algov_should_update_freq K sg t = false ->
  fast_switch_enabled (policy sg) = false
  \/ cpufreq_this_cpu_can_update K (policy sg) = true ->
  forall f, fst (algov_update_next_freq sg t f) = false
            /\ next_freq (snd (algov_update_next_freq sg t f)) = next_freq sg.
Proof.
  intros (Hu & Hd & Hm) Hg Hloc f.
  unfold algov_should_update_freq in Hg.
  assert (Hc : fast_switch_enabled (policy sg)
               && negb (cpufreq_this_cpu_can_update K (policy sg)) = false).
  { destruct Hloc as [-> | ->]; [reflexivity | apply andb_false_r]. }
  rewrite Hc in Hg. destruct (need_freq_update sg); [discriminate|].
  rewrite Z.geb_leb in Hg. apply Z.leb_gt in Hg. rewrite Hm in Hg.
  destruct (Z.lt_total f (next_freq sg)) as [Hlt | [-> | Hgt]].
  - unfold algov_update_next_freq. rewrite rate_limit_down by lia.
    split; reflexivity.
  - rewrite update_next_freq_equal. split; reflexivity.
  - unfold algov_update_next_freq. rewrite rate_limit_up by lia.
    split; reflexivity.
Qed.

Lemma gate_closed_limiter_rejects_witness :
  fst (algov_update_next_freq example_policy 1000 1800000) = false.
Proof.
  apply (gate_closed_limiter_rejects example_env example_policy 1000).
  - unfold limits_ok. vm_compute. intuition discriminate.
  - reflexivity.
  - left. reflexivity.
Defined.

(** The limiter decides without looking at [work_in_progress]. *)
Lemma update_next_freq_work sg t f (b : bool) :
  algov_update_next_freq (set_work_in_progress b sg) t f
  = (fst (algov_update_next_freq sg t f),
     set_work_in_progress b (snd (algov_update_next_freq sg t f))).
Proof.
  unfold algov_update_next_freq, algov_up_down_rate_limit.
  cbn [next_freq last_freq_update_time up_rate_delay_ns down_rate_delay_ns
       set_work_in_progress].
  repeat break_if; reflexivity.
Qed.

Lemma limiter_trace_work evals : forall sg (b : bool),
  limiter_trace (set_work_in_progress b sg) evals = limiter_trace sg evals.
Proof.
  induction evals as [| [t f] evals IH]; intros sg b; [reflexivity|].
  cbn [limiter_trace]. rewrite update_next_freq_work.
  destruct (algov_update_next_freq sg t f) as [a s]. cbn [fst snd].
  rewrite IH. reflexivity.
Qed.

Lemma deferred_run_in_progress evals : forall sg,
  work_in_progress sg = true ->
  snd (deferred_run sg evals) = []
  /\ work_in_progress (fst (deferred_run sg evals)) = true.
Proof.
  induction evals as [| [t f] evals IH]; intros sg Hw.
  - split; [reflexivity | exact Hw].
  - cbn [deferred_run]. unfold algov_deferred_update.
    pose proof (update_next_freq_frame sg t f) as (_ & _ & Ew & _).
    destruct (algov_update_next_freq sg t f) as [a s]. cbn [snd] in Ew.
    rewrite Hw in Ew.
    assert (E : (if negb a then (s, [])
                 else if negb (work_in_progress s)
                 then (set_work_in_progress true s, [Irq_work_queue])
                 else (s, [])) = (s, @nil event)).
    { rewrite Ew. destruct a; reflexivity. }
    rewrite E. destruct (IH s Ew) as [Ee Ef].
    destruct (deferred_run s evals) as [s' evs]. cbn [fst snd] in *.
    subst evs. split; [reflexivity | exact Ef].
Qed.

(** X3. Deferred updates coalesce. While the worker has not run, a sequence of
    deferred updates queues the interrupt work once, at the first change
    the limiter accepts, and not at all when none is accepted or when work
    was already in progress; [work_in_progress] tells which. The worker
    then clears the flag and hands the driver the [next_freq] it finds. *)
Theorem deferred_run_coalesces evals : forall sg,
  let r := deferred_run sg evals in
  let some_accepted :=
    existsb (fun e => accepted (snd e)) (limiter_trace sg evals) in
  snd r
  = (if negb (work_in_progress sg) && some_accepted
     then [Irq_work_queue] else [])
  /\ work_in_progress (fst r) = work_in_progress sg || some_accepted
  /\ work_in_progress (fst (algov_work (fst r))) = false
  /\ snd (algov_work (fst r)) = next_freq (fst r).
Proof.
  intros sg r some_accepted.
  assert (H : snd r
              = (if negb (work_in_progress sg) && some_accepted
                 then [Irq_work_queue] else [])
              /\ work_in_progress (fst r)
                 = work_in_progress sg || some_accepted);
    [|destruct H; repeat split; assumption].
  subst r some_accepted. revert sg.
  induction evals as [| [t f] evals IH]; intros sg.
  - cbn. rewrite andb_false_r, orb_false_r. split; reflexivity.
  - destruct (work_in_progress sg) eqn:Hw.
    { destruct (deferred_run_in_progress ((t, f) :: evals) sg Hw)
        as [-> ->]. split; reflexivity. }
    cbn [deferred_run limiter_trace negb andb orb].
    unfold algov_deferred_update.
    pose proof (update_next_freq_frame sg t f) as (_ & _ & Ew & _).
    destruct (algov_update_next_freq sg t f) as [a s] eqn:Eu.
    cbn [snd] in Ew. rewrite Hw in Ew. rewrite Ew. cbn [negb].
    destruct a; cbn [negb existsb snd].
    + destruct (deferred_run_in_progress evals (set_work_in_progress true s))
        as [Ee Ef]; [reflexivity|].
      destruct (deferred_run (set_work_in_progress true s) evals)
        as [s' evs]. cbn [fst snd] in *. subst evs.
      unfold classify.
      destruct (f >? next_freq sg); split; solve [reflexivity | exact Ef].
    + specialize (IH s). rewrite Ew in IH. cbn [negb andb orb] in IH.
      destruct (deferred_run s evals) as [s' evs]. cbn [fst snd] in *.
      cbn [classify accepted orb]. exact IH.
Qed.

End LimiterMore.

(** ** Configuration, limits and tunables *)

Section Config.

Variable K : kernel_env.
Implicit Types (sg s : algov_policy) (c : algov_cpu) (tun : algov_tunables).

Lemma same_config_refl sg : same_config sg sg.
Proof. repeat split. Qed.

Lemma same_config_trans sg s s' :
  same_config sg s -> same_config s s' -> same_config sg s'.
Proof.
  unfold same_config. intros (A1 & A2 & A3 & A4 & A5) (B1 & B2 & B3 & B4 & B5).
  repeat split; congruence.
Qed.

Lemma get_next_freq_config sg u m busy :
  same_config sg (snd (get_next_freq K sg u m busy)).
Proof.
  pose proof (get_next_freq_frame K sg u m busy) as F. cbv zeta in F.
  unfold same_config. intuition.
Qed.

Lemma apply_config sg t f : same_config sg (fst (algov_apply sg t f)).
Proof.
  unfold algov_apply, algov_fast_switch, algov_deferred_update.
  pose proof (update_next_freq_frame sg t f) as F. cbv zeta in F.
  destruct (algov_update_next_freq sg t f) as [a s]. cbn [snd] in F.
  destruct F as (F1 & F2 & F3 & F4 & F5 & F6 & F7).
  destruct (fast_switch_enabled (policy sg)); destruct a; cbn [negb fst];
    try (repeat split; assumption).
  destruct (work_in_progress s); cbn [negb fst]; repeat split; assumption.
Qed.

Lemma apply_fast_no_event sg t f :
  fast_switch_enabled (policy sg) = true -> snd (algov_apply sg t f) = [].
Proof.
  intros Hf. unfold algov_apply, algov_fast_switch. rewrite Hf.
  destruct (algov_update_next_freq sg t f) as [a s].
  destruct a; reflexivity.
Qed.

Lemma single_next_f_config sg c time flags' util_uninit :
  same_config sg
    (snd (fst (algov_single_next_f K sg c time flags' util_uninit))).
Proof.
  unfold algov_single_next_f.
  destruct (if use_pelt K then algov_cpu_is_busy K c else (false, c))
    as [busy c1].
  destruct (flag_set flags' (SCHED_CPUFREQ_DL K)); [apply same_config_refl|].
  unfold algov_single_select.
  destruct (algov_get_util K time
              (cpu (algov_cpu_is_busy_update K c1 util_uninit))) as [u m].
  destruct (algov_iowait_boost sg (algov_cpu_is_busy_update K c1 util_uninit)
              u m) as [[c2 u2] m2].
  pose proof (get_next_freq_config sg u2 m2 busy) as F.
  destruct (get_next_freq K sg u2 m2 busy) as [f s]. cbn [snd] in F.
  break_if; cbn [fst snd]; [|exact F].
  unfold same_config in *. cbn. exact F.
Qed.

Lemma next_freq_shared_config sg (st : per_cpu_store) (p : nat) time :
  same_config sg (snd (fst (algov_next_freq_shared K sg st p time))).
Proof.
  unfold algov_next_freq_shared.
  destruct (algov_shared_scan K sg p time (policy_cpus (policy sg)) st
              0 1 0 false) as [f st' | u m su busy st'].
  - apply same_config_refl.
  - pose proof (get_next_freq_config sg u m busy) as F.
    destruct (get_next_freq K sg u m busy) as [f s]. exact F.
Qed.

Lemma update_single_config tun sg c time flags' util_uninit :
  let r := algov_update_single K tun sg c time flags' util_uninit in
  same_config sg (fst (fst r))
  /\ (fast_switch_enabled (policy sg) = true -> snd r = []).
Proof.
  unfold algov_update_single.
  destruct (work_in_progress sg);
    [split; [apply same_config_refl | reflexivity]|].
  destruct (algov_should_update_freq K sg time); cbn [negb];
    [|split; [apply same_config_refl | reflexivity]].
  set (c0 := set_last_update time (algov_set_iowait_boost K tun sg c time)).
  pose proof (single_next_f_config sg c0 time flags' util_uninit) as F.
  destruct (algov_single_next_f K sg c0 time flags' util_uninit)
    as [[f s] c2]. cbn [fst snd] in F.
  pose proof (apply_config s time f) as G.
  pose proof (apply_fast_no_event s time f) as N.
  destruct (algov_apply s time f) as [s' evs]. cbn [fst snd] in *.
  split; [apply (same_config_trans sg s s'); assumption|].
  intros Hf. apply N. rewrite (proj1 F). exact Hf.
Qed.

Lemma update_shared_config tun sg (st : per_cpu_store) (p : nat) time flags' :
  let r := algov_update_shared K tun sg st p time flags' in
  same_config sg (fst (fst r))
  /\ (fast_switch_enabled (policy sg) = true -> snd r = []).
Proof.
  unfold algov_update_shared.
  destruct (algov_get_util K time (cpu (st p))) as [u m].
  destruct (algov_should_update_freq K sg time);
    [|split; [apply same_config_refl | reflexivity]].
  match goal with
  | |- context [algov_next_freq_shared K sg ?st1 p time] =>
    pose proof (next_freq_shared_config sg st1 p time) as F;
    destruct (algov_next_freq_shared K sg st1 p time) as [[f s] st2]
  end.
  cbn [fst snd] in F.
  destruct (flag_set flags' (SCHED_CPUFREQ_DL K)).
  - pose proof (apply_config sg time (cpuinfo_max_freq (policy sg))) as G.
    pose proof (apply_fast_no_event sg time (cpuinfo_max_freq (policy sg)))
      as N.
    destruct (algov_apply sg time (cpuinfo_max_freq (policy sg)))
      as [s' evs]. cbn [fst snd] in *. split; assumption.
  - pose proof (apply_config s time f) as G.
    pose proof (apply_fast_no_event s time f) as N.
    destruct (algov_apply s time f) as [s' evs]. cbn [fst snd] in *.
    split; [apply (same_config_trans sg s s'); assumption|].
    intros Hf. apply N. rewrite (proj1 F). exact Hf.
Qed.

Lemma apply_fast_work sg t f :
  fast_switch_enabled (policy sg) = true ->
  work_in_progress (fst (algov_apply sg t f)) = work_in_progress sg.
Proof.
  intros Hf. unfold algov_apply, algov_fast_switch. rewrite Hf.
  pose proof (update_next_freq_frame sg t f) as (_ & _ & Ew & _).
  destruct (algov_update_next_freq sg t f) as [a s]. cbn [snd] in Ew.
  destruct a; cbn; exact Ew.
Qed.

Lemma single_next_f_work sg c time flags' util_uninit :
  work_in_progress
    (snd (fst (algov_single_next_f K sg c time flags' util_uninit)))
  = work_in_progress sg.
Proof.
  unfold algov_single_next_f.
  destruct (if use_pelt K then algov_cpu_is_busy K c else (false, c))
    as [busy c1].
  destruct (flag_set flags' (SCHED_CPUFREQ_DL K)); [reflexivity|].
  unfold algov_single_select.
  destruct (algov_get_util K time
              (cpu (algov_cpu_is_busy_update K c1 util_uninit))) as [u m].
  destruct (algov_iowait_boost sg
              (algov_cpu_is_busy_update K c1 util_uninit) u m)
    as [[c2 u2] m2].
  pose proof (get_next_freq_frame K sg u2 m2 busy) as G. cbv zeta in G.
  destruct (get_next_freq K sg u2 m2 busy) as [f s]. cbn [snd] in G.
  break_if; cbn; intuition.
Qed.

Lemma next_freq_shared_work sg (st : per_cpu_store) (p : nat) time :
  work_in_progress (snd (fst (algov_next_freq_shared K sg st p time)))
  = work_in_progress sg.
Proof.
  unfold algov_next_freq_shared.
  destruct (algov_shared_scan K sg p time (policy_cpus (policy sg)) st
              0 1 0 false) as [f st' | u m su busy st']; [reflexivity|].
  pose proof (get_next_freq_frame K sg u m busy) as G. cbv zeta in G.
  destruct (get_next_freq K sg u m busy) as [f s]. cbn [fst snd] in *.
  intuition.
Qed.

(** X4. No update changes the cpufreq policy object ([policy->cur] included),
    the perf domain or the delays, in either apply mode; and when fast
    switching is enabled no update, single or shared, produces an event or
    changes [work_in_progress], the fast switch being stubbed to return
    0. *)
Theorem updates_keep_config tun sg c (st : per_cpu_store) (p : nat)
  time flags' util_uninit :
  let r1 := algov_update_single K tun sg c time flags' util_uninit in
  let r2 := algov_update_shared K tun sg st p time flags' in
  same_config sg (fst (fst r1)) /\ same_config sg (fst (fst r2))
  /\ (fast_switch_enabled (policy sg) = true ->
      snd r1 = [] /\ snd r2 = []
      /\ work_in_progress (fst (fst r1)) = work_in_progress sg
      /\ work_in_progress (fst (fst r2)) = work_in_progress sg).
Proof.
  intros r1 r2.
  destruct (update_single_config tun sg c time flags' util_uninit)
    as [A1 A2].
  destruct (update_shared_config tun sg st p time flags') as [B1 B2].
  split; [exact A1|]. split; [exact B1|]. intros Hf.
  split; [apply A2; exact Hf|]. split; [apply B2; exact Hf|]. split.
  - subst r1. unfold algov_update_single.
    destruct (work_in_progress sg) eqn:Hw; [exact Hw|].
    destruct (algov_should_update_freq K sg time); cbn [negb]; [|exact Hw].
    set (c0 := set_last_update time
                 (algov_set_iowait_boost K tun sg c time)).
    pose proof (single_next_f_config sg c0 time flags' util_uninit) as F.
    pose proof (single_next_f_work sg c0 time flags' util_uninit) as Ew.
    destruct (algov_single_next_f K sg c0 time flags' util_uninit)
      as [[f s] c2]. cbn [fst snd] in F, Ew.
    pose proof (apply_fast_work s time f) as W.
    rewrite (proj1 F) in W. specialize (W Hf).
    destruct (algov_apply s time f) as [s' evs]. cbn [fst] in *.
    congruence.
  - subst r2. unfold algov_update_shared.
    destruct (algov_get_util K time (cpu (st p))) as [u m].
    destruct (algov_should_update_freq K sg time); [|reflexivity].
    destruct (flag_set flags' (SCHED_CPUFREQ_DL K)).
    + pose proof (apply_fast_work sg time (cpuinfo_max_freq (policy sg)) Hf)
        as W.
      destruct (algov_apply sg time (cpuinfo_max_freq (policy sg)))
        as [s' evs]. exact W.
    + match goal with
      | |- context [algov_next_freq_shared K sg ?st1 p time] =>
        pose proof (next_freq_shared_config sg st1 p time) as F;
        pose proof (next_freq_shared_work sg st1 p time) as Ew;
        destruct (algov_next_freq_shared K sg st1 p time) as [[f s] st2]
      end.
      cbn [fst snd] in F, Ew.
      pose proof (apply_fast_work s time f) as W.
      rewrite (proj1 F) in W. specialize (W Hf).
      destruct (algov_apply s time f) as [s' evs]. cbn [fst] in *.
      congruence.
Qed.

(** X5. The delays stay consistent. [algov_start] makes them so, for tunables
    that fit [unsigned int] and 1000 ns to the us, and every update, the
    worker and [algov_limits] keep them so. *)
Theorem limits_ok_kept tun sg c (st : per_cpu_store) (p : nat)
  time flags' util_uninit
  (apply_limits : cpufreq_policy -> cpufreq_policy) :
  (NSEC_PER_USEC K = 1000 ->
   0 <= up_rate_limit_us tun < 2 ^ 32 ->
   0 <= down_rate_limit_us tun < 2 ^ 32 ->
   limits_ok (algov_start_policy K tun sg)
   /\ up_rate_delay_ns (algov_start_policy K tun sg)
      = 1000 * up_rate_limit_us tun
   /\ down_rate_delay_ns (algov_start_policy K tun sg)
      = 1000 * down_rate_limit_us tun)
  /\ (limits_ok sg ->
      limits_ok (fst (fst (algov_update_single K tun sg c time flags'
                             util_uninit)))
      /\ limits_ok (fst (fst (algov_update_shared K tun sg st p time
                                flags')))
      /\ limits_ok (fst (algov_work sg))
      /\ limits_ok (algov_limits apply_limits sg)).
Proof.
  split.
  - intros Hn Hu Hd.
    assert (Eu : up_rate_delay_ns (algov_start_policy K tun sg)
                 = s64 (up_rate_limit_us tun * NSEC_PER_USEC K))
      by reflexivity.
    assert (Ed : down_rate_delay_ns (algov_start_policy K tun sg)
                 = s64 (down_rate_limit_us tun * NSEC_PER_USEC K))
      by reflexivity.
    assert (Em : min_rate_limit_ns (algov_start_policy K tun sg)
                 = Z.min (s64 (up_rate_limit_us tun * NSEC_PER_USEC K))
                     (s64 (down_rate_limit_us tun * NSEC_PER_USEC K)))
      by reflexivity.
    unfold limits_ok. rewrite Eu, Ed, Em, Hn.
    rewrite !s64_small by lia. repeat split; lia.
  - intros (Hu & Hd & Hm).
    assert (Hk : forall s, same_config sg s -> limits_ok s).
    { intros s (_ & _ & E1 & E2 & E3). unfold limits_ok.
      rewrite E1, E2, E3. repeat split; assumption. }
    split; [apply Hk, update_single_config|].
    split; [apply Hk, update_shared_config|].
    split; [repeat split; assumption|].
    unfold algov_limits, limits_ok. break_if; cbn; repeat split; assumption.
Qed.

(** X6. A change of limits forces the next evaluation. After [algov_limits]
    the gate lets a processor allowed to update through at any time, and
    [get_next_freq] resolves the raw frequency anew even when it equals the
    cached one, clearing the refresh flag as it does. *)
Theorem limits_force_refresh
  (apply_limits : cpufreq_policy -> cpufreq_policy) sg (t u m : Z)
  (busy : bool) :
  let s := algov_limits apply_limits sg in
  let raw := raw_freq K s u m busy in
  fast_switch_enabled (policy s) = false
  \/ cpufreq_this_cpu_can_update K (policy s) = true ->
  algov_should_update_freq K s t = true
  /\ get_next_freq K s u m busy
     = (cpufreq_driver_resolve_freq K (policy s) raw,
        set_cached_raw_freq raw (set_need_freq_update false s))
  /\ need_freq_update (snd (get_next_freq K s u m busy)) = false.
Proof.
  intros s raw Hloc.
  assert (Hn : need_freq_update s = true).
  { subst s. unfold algov_limits. break_if; reflexivity. }
  split; [|split].
  - unfold algov_should_update_freq. rewrite Hn.
    destruct Hloc as [-> | ->]; [reflexivity|].
    rewrite andb_false_r. reflexivity.
  - unfold get_next_freq. fold raw. rewrite Hn, andb_false_r. reflexivity.
  - apply get_next_freq_no_refresh.
Qed.

End Config.

Lemma updates_keep_config_witness :
  snd (algov_update_single example_env example_tunables
         (set_policy (set_policy_cur 1000000
            {| policy_cpu := 0; policy_cpus := [0%nat];
               policy_min := 300000; policy_max := 1800000;
               policy_cur := 1000000; cpuinfo_max_freq := 1800000;
               fast_switch_enabled := true |}) example_policy)
         (example_cpu 0) 1000000000 2 0) = [].
Proof.
  match goal with
  | |- snd (algov_update_single ?K ?tun ?sg ?c ?t ?fl ?uu) = [] =>
    apply (proj1 (proj2 (proj2 (updates_keep_config K tun sg c
                                  example_store 0%nat t fl uu)) eq_refl))
  end.
Defined.

Lemma limits_ok_kept_witness :
  limits_ok example_policy
  /\ limits_ok (fst (fst (algov_update_single example_env example_tunables
                            example_policy (example_cpu 0) 1000000000 0 0))).
Proof.
  pose proof (limits_ok_kept example_env example_tunables example_policy
                (example_cpu 0)
                example_store 0%nat 1000000000 0 0 (fun p => p))
    as [Hs Hk].
  assert (H0 : limits_ok example_policy).
  { apply Hs; [reflexivity | cbn; lia | cbn; lia]. }
  split; [exact H0|]. apply (Hk H0).
Defined.

Lemma limits_force_refresh_witness :
  algov_should_update_freq example_env
    (algov_limits (fun p => p) example_policy_cached) 1000 = true
  /\ fst (get_next_freq example_env
            (algov_limits (fun p => p) example_policy_cached) 300 1024 false)
     = 300000.
Proof.
  pose proof (limits_force_refresh example_env (fun p => p)
                example_policy_cached
                1000 300 1024 false (or_introl eq_refl)) as (Hg & He & _).
  split; [exact Hg|]. rewrite He. reflexivity.
Defined.

(** ** The tunables: the boost switch, saving and restoring *)

Section Tunables.

Variable K : kernel_env.
Implicit Types (tun : algov_tunables) (cs : cached_store)
  (sg : algov_policy).

(** X7. A write to [iowait_boost_enable] that is no boolean is refused with
    [-EINVAL] and changes nothing; one that is a boolean returns the count
    and sets the switch to it. Either way the rate limits and the attached
    policies are untouched, and once the switch is off
    [algov_set_iowait_boost] leaves every processor as it is. *)
Theorem iowait_boost_enable_store_effect
  (kstrtobool : string -> option bool) (a : gov_attr_set) (buf : string)
  (count : Z) :
  0 <= count < 2 ^ 63 ->
  let r := call (iowait_boost_enable_store K kstrtobool buf count) a in
  policy_list (snd r) = policy_list a
  /\ up_rate_limit_us (attr_tunables (snd r))
     = up_rate_limit_us (attr_tunables a)
  /\ down_rate_limit_us (attr_tunables (snd r))
     = down_rate_limit_us (attr_tunables a)
  /\ (kstrtobool buf = None -> r = (- EINVAL K, a))
  /\ (forall e, kstrtobool buf = Some e ->
        fst r = count /\ iowait_boost_enable (attr_tunables (snd r)) = e)
  /\ (kstrtobool buf = Some false ->
      forall sg c time,
        algov_set_iowait_boost K (attr_tunables (snd r)) sg c time = c).
Proof.
  intros Hc r. subst r. unfold iowait_boost_enable_store.
  destruct (kstrtobool buf) as [e |].
  - assert (E : call
                  (seq (A := unit)
                     (assign (fun a0 : gov_attr_set =>
                        {| attr_tunables :=
                             set_iowait_boost_enable e (attr_tunables a0);
                           policy_list := policy_list a0 |}))
                     (fun _ => c_return (s64 count))) a
                = (count,
                   {| attr_tunables :=
                        set_iowait_boost_enable e (attr_tunables a);
                      policy_list := policy_list a |})).
    { unfold call, seq, assign, c_return. rewrite s64_small by lia.
      reflexivity. }
    rewrite E. cbn [fst snd attr_tunables policy_list].
    split; [reflexivity|]. split; [reflexivity|]. split; [reflexivity|].
    split; [discriminate|]. split.
    + intros e' Ee. injection Ee as <-. split; reflexivity.
    + intros Ee sg c time. injection Ee as ->. reflexivity.
  - split; [reflexivity|]. split; [reflexivity|]. split; [reflexivity|].
    split; [reflexivity|]. split; [discriminate | discriminate].
Qed.

Lemma cached_write_obj id tun cs :
  up_rate_limit_us (cached_obj (cached_write id tun cs) id)
  = up_rate_limit_us tun
  /\ down_rate_limit_us (cached_obj (cached_write id tun cs) id)
     = down_rate_limit_us tun
  /\ iowait_boost_enable (cached_obj (cached_write id tun cs) id)
     = iowait_boost_enable (cached_obj cs id).
Proof.
  unfold cached_write. cbn [cached_obj]. rewrite Nat.eqb_refl.
  repeat split.
Qed.

Lemma existsb_eqb_In (k : nat) (l : list nat) :
  In k l -> existsb (Nat.eqb k) l = true.
Proof.
  intros H. apply existsb_exists. exists k. split; [exact H|].
  apply Nat.eqb_refl.
Qed.

(** After a save that finds or gets an object, the pointer of the policy's
    CPU is set and the object holds the two rate limits saved. *)
Lemma tunables_save_ptr (kzalloc_ok : bool) (pol : cpufreq_policy)
  (related_cpus : list nat) tun cs :
  cached_ptr cs (policy_cpu pol) <> None
  \/ (kzalloc_ok = true /\ In (policy_cpu pol) related_cpus) ->
  let cs' := algov_tunables_save true kzalloc_ok pol related_cpus tun cs in
  exists id,
    cached_ptr cs' (policy_cpu pol) = Some id
    /\ up_rate_limit_us (cached_obj cs' id) = up_rate_limit_us tun
    /\ down_rate_limit_us (cached_obj cs' id) = down_rate_limit_us tun
    /\ (cached_ptr cs (policy_cpu pol) = None ->
        iowait_boost_enable (cached_obj cs' id) = false
        /\ forall k, In k related_cpus -> cached_ptr cs' k = Some id).
Proof.
  intros H cs'. subst cs'. unfold algov_tunables_save. cbn [negb].
  destruct (cached_ptr cs (policy_cpu pol)) as [id |] eqn:Ep.
  - exists id. destruct (cached_write_obj id tun cs) as (E1 & E2 & _).
    repeat split; try assumption; discriminate.
  - destruct H as [H | [-> Hin]]; [contradiction|]. cbn [negb].
    exists (cached_next cs).
    match goal with
    | |- context [cached_write ?id tun ?c] =>
      destruct (cached_write_obj id tun c) as (E1 & E2 & E3)
    end.
    split; [|split; [exact E1 | split; [exact E2|]]].
    + cbn [cached_write cached_ptr]. rewrite existsb_eqb_In by assumption.
      reflexivity.
    + intros _. split.
      * rewrite E3. cbn [cached_obj]. rewrite Nat.eqb_refl. reflexivity.
      * intros k Hk. cbn [cached_write cached_ptr].
        rewrite existsb_eqb_In by assumption. reflexivity.
Qed.

(** X8. Saving and restoring is a round trip for the two rate limits. With a
    governor per policy, tunables saved at the exit of one instance are
    what [algov_tunables_restore] gives the next instance on the same CPU,
    or on any related CPU when the save allocated the object, with the
    delays computed from them; the boost switch is not carried over.
    Without a governor per policy the save does nothing. *)
Theorem tunables_save_restore (have_governor_per_policy kzalloc_ok : bool)
  (pol : cpufreq_policy) (related_cpus : list nat) tun cs
  (tun0 : algov_tunables) sg :
  policy_cpu (policy sg) = policy_cpu pol ->
  let cs' :=
    algov_tunables_save have_governor_per_policy kzalloc_ok pol
      related_cpus tun cs in
  let r := algov_tunables_restore K cs' tun0 sg in
  (have_governor_per_policy = false -> cs' = cs)
  /\ (have_governor_per_policy = true ->
      cached_ptr cs (policy_cpu pol) <> None
      \/ (kzalloc_ok = true /\ In (policy_cpu pol) related_cpus) ->
      up_rate_limit_us (fst r) = up_rate_limit_us tun
      /\ down_rate_limit_us (fst r) = down_rate_limit_us tun
      /\ iowait_boost_enable (fst r) = iowait_boost_enable tun0
      /\ up_rate_delay_ns (snd r)
         = s64 (up_rate_limit_us tun * NSEC_PER_USEC K)
      /\ down_rate_delay_ns (snd r)
         = s64 (down_rate_limit_us tun * NSEC_PER_USEC K)
      /\ min_rate_limit_ns (snd r)
         = Z.min (up_rate_delay_ns (snd r)) (down_rate_delay_ns (snd r))
      /\ (cached_ptr cs (policy_cpu pol) = None ->
          forall k, In k related_cpus ->
            cached_ptr cs' k = cached_ptr cs' (policy_cpu pol))).
Proof.
  intros Ecpu cs' r. split.
  - intros ->. reflexivity.
  - intros -> H.
    destruct (tunables_save_ptr kzalloc_ok pol related_cpus tun cs H)
      as (id & Ep & Eu & Ed & Ha).
    fold cs' in Ep, Eu, Ed, Ha.
    subst r. unfold algov_tunables_restore. rewrite Ecpu, Ep.
    cbn [fst snd up_rate_limit_us down_rate_limit_us iowait_boost_enable
         set_up_rate_limit_us set_down_rate_limit_us
         up_rate_delay_ns down_rate_delay_ns min_rate_limit_ns
         set_up_rate_delay_ns set_down_rate_delay_ns set_min_rate_limit_ns].
    rewrite Eu, Ed. repeat split.
    intros Hn k Hk. apply (proj2 (Ha Hn) k Hk).
Qed.

(** X9. [algov_init] never uses the transition delays or the latency of the
    policy: the rate limits it leaves are the hard-coded 500 and 20000 us,
    or the ones cached for the policy's CPU when there are some, and the
    boost switch is off. *)
Theorem init_tunables_hard_coded
  (up_transition_delay_us down_transition_delay_us transition_latency : Z)
  cs sg :
  let tun :=
    algov_init_tunables K up_transition_delay_us down_transition_delay_us
      transition_latency in
  let r := algov_tunables_restore K cs tun sg in
  tun = {| up_rate_limit_us := 500; down_rate_limit_us := 20000;
           iowait_boost_enable := false |}
  /\ iowait_boost_enable (fst r) = false
  /\ match cached_ptr cs (policy_cpu (policy sg)) with
     | None => r = (tun, sg)
     | Some id =>
       up_rate_limit_us (fst r) = up_rate_limit_us (cached_obj cs id)
       /\ down_rate_limit_us (fst r) = down_rate_limit_us (cached_obj cs id)
     end.
Proof.
  intros tun r.
  assert (Et : tun = {| up_rate_limit_us := 500; down_rate_limit_us := 20000;
                        iowait_boost_enable := false |}).
  { subst tun. unfold algov_init_tunables. cbv zeta.
    repeat break_if; reflexivity. }
  split; [exact Et|]. subst r. unfold algov_tunables_restore.
  destruct (cached_ptr cs (policy_cpu (policy sg))) as [id |].
  - rewrite Et. cbn. repeat split.
  - rewrite Et. cbn. split; reflexivity.
Qed.

End Tunables.

Lemma iowait_boost_enable_store_effect_witness :
  call (iowait_boost_enable_store example_env example_kstrtobool "maybe" 6)
    example_attr_set = (-22, example_attr_set)
  /\ iowait_boost_enable
       (attr_tunables
          (snd (call (iowait_boost_enable_store example_env
                        example_kstrtobool "1" 2) example_attr_set)))
     = true.
Proof.
  split.
  - apply (iowait_boost_enable_store_effect example_env example_kstrtobool
             example_attr_set "maybe" 6 ltac:(lia)). reflexivity.
  - apply (iowait_boost_enable_store_effect example_env example_kstrtobool
             example_attr_set "1" 2 ltac:(lia)). reflexivity.
Defined.

Lemma tunables_save_restore_witness :
  let cs' :=
    algov_tunables_save true true example_cpufreq_policy [0; 1]%nat
      example_user_tunables example_cached_store in
  up_rate_limit_us
    (fst (algov_tunables_restore example_env cs' example_tunables
            example_policy)) = 1000
  /\ up_rate_delay_ns
       (snd (algov_tunables_restore example_env cs' example_tunables
               example_policy)) = 1000000.
Proof.
  pose proof (tunables_save_restore example_env true true
                example_cpufreq_policy [0; 1]%nat example_user_tunables
                example_cached_store example_tunables example_policy
                eq_refl) as [_ H].
  destruct (H eq_refl) as (E1 & _ & _ & E4 & _).
  { right. split; [reflexivity | left; reflexivity]. }
  cbv zeta. split; [exact E1 | exact E4].
Defined.

(** ** More on the io-wait booster *)

Section BoosterMore.

Implicit Types (K : kernel_env) (sg : algov_policy) (c : algov_cpu)
  (tun : algov_tunables).

Lemma busy_update_boost K c (v : Z) :
  iowait_boost (algov_cpu_is_busy_update K c v) = iowait_boost c
  /\ iowait_boost_pending (algov_cpu_is_busy_update K c v)
     = iowait_boost_pending c
  /\ iowait_boost_max (algov_cpu_is_busy_update K c v) = iowait_boost_max c
  /\ flags (algov_cpu_is_busy_update K c v) = flags c.
Proof.
  unfold algov_cpu_is_busy_update. cbv zeta. break_if; repeat split.
Qed.

Lemma set_iowait_boost_ok K tun sg c time :
  0 <= policy_min (policy sg) <= iowait_boost_max c ->
  boost_ok c -> boost_ok (algov_set_iowait_boost K tun sg c time).
Proof.
  intros Hmin [H0 H1]. unfold boost_ok, algov_set_iowait_boost. cbv zeta.
  destruct (iowait_boost_enable tun); cbn [negb]; [|split; assumption].
  rewrite nested_if.
  destruct (negb (iowait_boost c =? 0)
            && (s64 (time - last_update c) >? TICK_NSEC K)); cpu_fields.
  - destruct (flag_set (flags c) (SCHED_CPUFREQ_IOWAIT K)); cpu_fields;
      change (0 =? 0) with true; cbn [negb]; cpu_fields; lia.
  - destruct (flag_set (flags c) (SCHED_CPUFREQ_IOWAIT K));
      [|split; assumption].
    destruct (iowait_boost_pending c); [split; assumption|]. cpu_fields.
    destruct (negb (iowait_boost c =? 0)); cpu_fields; [|lia].
    assert (0 <= u32 (Z.shiftl (iowait_boost c) 1)).
    { unfold u32. apply Z.mod_pos_bound. lia. }
    destruct (Z.gtb_spec (u32 (Z.shiftl (iowait_boost c) 1))
                (iowait_boost_max c)); cpu_fields; lia.
Qed.

Lemma boost_decay_pending sg c :
  iowait_boost_pending (boost_decay sg c)
  = if iowait_boost c =? 0 then iowait_boost_pending c else false.
Proof.
  unfold boost_decay, algov_iowait_boost. cbv zeta.
  destruct (iowait_boost c =? 0); [reflexivity|].
  destruct (iowait_boost_pending c) eqn:Ep.
  - break_if; reflexivity.
  - cbn [iowait_boost set_iowait_boost].
    destruct (Z.shiftr (iowait_boost c) 1 <? policy_min (policy sg));
      [exact Ep|].
    break_if; exact Ep.
Qed.

(** One application of the boost: it does not grow, and it is at most
    halved unless a pending mark was there to clear. *)
Lemma boost_decay_step sg c :
  0 <= iowait_boost c ->
  0 <= iowait_boost (boost_decay sg c) <= iowait_boost c
  /\ (iowait_boost_pending c = false ->
      iowait_boost (boost_decay sg c) <= iowait_boost c / 2).
Proof.
  intros H0. rewrite (proj1 (boost_decay_boost sg c)), shiftr_1_half.
  assert (0 <= iowait_boost c / 2 <= iowait_boost c).
  { split; [apply Z.div_pos; lia|]. apply Z.div_le_upper_bound; lia. }
  destruct (Z.eqb_spec (iowait_boost c) 0) as [E | E].
  - rewrite E. cbn. split; [lia | intros _; lia].
  - destruct (iowait_boost_pending c); [split; [lia | discriminate]|].
    break_if; split; try lia; intros _; lia.
Qed.

Lemma iowait_boost_ok sg c (u m : Z) :
  boost_ok c -> boost_ok (fst (fst (algov_iowait_boost sg c u m))).
Proof.
  intros [H0 H1]. rewrite iowait_boost_decay. unfold boost_ok.
  rewrite (proj2 (boost_decay_boost sg c)).
  pose proof (boost_decay_step sg c H0). lia.
Qed.

(** X10. The boost of a processor stays within its bounds: when it is between
    zero and its maximum and the policy minimum is too, it still is after
    [algov_set_iowait_boost], after [algov_iowait_boost], and after a whole
    call of [algov_update_single]. *)
Theorem boost_ok_kept K tun sg c (time flags' util_uninit u m : Z) :
  0 <= policy_min (policy sg) <= iowait_boost_max c ->
  boost_ok c ->
  boost_ok (algov_set_iowait_boost K tun sg c time)
  /\ boost_ok (fst (fst (algov_iowait_boost sg c u m)))
  /\ boost_ok (snd (fst (algov_update_single K tun sg c time flags'
                           util_uninit))).
Proof.
  intros Hmin Hc.
  pose proof (set_iowait_boost_ok K tun sg c time Hmin Hc) as H1.
  split; [exact H1|]. split; [apply iowait_boost_ok; exact Hc|].
  assert (H2 : boost_ok (set_last_update time
                           (algov_set_iowait_boost K tun sg c time)))
    by exact H1.
  unfold algov_update_single.
  set (c0 := set_last_update time (algov_set_iowait_boost K tun sg c time))
    in *.
  destruct (work_in_progress sg); [exact H2|].
  destruct (algov_should_update_freq K sg time); cbn [negb]; [|exact H2].
  assert (H3 : boost_ok (snd (algov_single_next_f K sg c0 time flags'
                                util_uninit))).
  { unfold algov_single_next_f.
    assert (Hb : forall b c1, (if use_pelt K then algov_cpu_is_busy K c0
                               else (false, c0)) = (b, c1) -> boost_ok c1).
    { intros b c1. destruct (use_pelt K); intros E; injection E as _ <-;
        exact H2. }
    destruct (if use_pelt K then algov_cpu_is_busy K c0 else (false, c0))
      as [b c1]. specialize (Hb b c1 eq_refl).
    assert (Hu : boost_ok (algov_cpu_is_busy_update K c1 util_uninit)).
    { destruct (busy_update_boost K c1 util_uninit) as (E1 & _ & E3 & _).
      unfold boost_ok. rewrite E1, E3. exact Hb. }
    destruct (flag_set flags' (SCHED_CPUFREQ_DL K)); [exact Hu|].
    unfold algov_single_select.
    destruct (algov_get_util K time
                (cpu (algov_cpu_is_busy_update K c1 util_uninit)))
      as [u1 m1].
    pose proof (iowait_boost_ok sg
                  (algov_cpu_is_busy_update K c1 util_uninit) u1 m1 Hu)
      as Hi.
    destruct (algov_iowait_boost sg
                (algov_cpu_is_busy_update K c1 util_uninit) u1 m1)
      as [[c2 u2] m2]. cbn [fst] in Hi.
    destruct (get_next_freq K sg u2 m2 b) as [f s].
    break_if; exact Hi. }
  destruct (algov_single_next_f K sg c0 time flags' util_uninit)
    as [[f s] c2]. cbn [snd] in H3.
  destruct (algov_apply s time f) as [s' evs]. exact H3.
Qed.

Lemma decay_run_zero sg (n : nat) : forall c,
  iowait_boost c = 0 -> decay_run sg n c = c.
Proof.
  induction n as [| n IH]; intros c E; [reflexivity|].
  cbn [decay_run].
  assert (Ed : boost_decay sg c = c).
  { unfold boost_decay, algov_iowait_boost. rewrite E. reflexivity. }
  rewrite Ed. apply IH. exact E.
Qed.

Lemma decay_run_halves sg (n : nat) : forall c,
  iowait_boost_pending c = false ->
  0 <= iowait_boost c < 2 ^ Z.of_nat n ->
  iowait_boost (decay_run sg n c) = 0.
Proof.
  induction n as [| n IH]; intros c Hp Hb.
  - cbn in *. lia.
  - cbn [decay_run]. apply IH.
    + rewrite boost_decay_pending. rewrite Hp. break_if; reflexivity.
    + destruct (boost_decay_step sg c (proj1 Hb)) as [[H0 _] Hh].
      specialize (Hh Hp). split; [exact H0|].
      rewrite Nat2Z.inj_succ, Z.pow_succ_r in Hb by lia.
      assert (iowait_boost c / 2 < 2 ^ Z.of_nat n)
        by (apply Z.div_lt_upper_bound; lia).
      lia.
Qed.

(** X11. With nothing setting it pending again, the boost never grows from one
    application to the next and is exactly zero after 33 of them: one to
    clear a pending mark and 32 halvings of an [unsigned int]. *)
Theorem boost_decays_to_zero sg c :
  0 <= iowait_boost c < 2 ^ 32 ->
  (forall n, iowait_boost (decay_run sg (S n) c)
             <= iowait_boost (decay_run sg n c))
  /\ forall n, (33 <= n)%nat -> iowait_boost (decay_run sg n c) = 0.
Proof.
  intros Hb. split.
  - assert (G : forall n c', 0 <= iowait_boost c' ->
                  0 <= iowait_boost (decay_run sg n c')
                  /\ iowait_boost (decay_run sg (S n) c')
                     <= iowait_boost (decay_run sg n c')).
    { induction n as [| n IH]; intros c' H0.
      - cbn [decay_run]. pose proof (boost_decay_step sg c' H0). lia.
      - change (decay_run sg (S (S n)) c')
          with (decay_run sg (S n) (boost_decay sg c')).
        change (decay_run sg (S n) c')
          with (decay_run sg n (boost_decay sg c')).
        apply IH. pose proof (boost_decay_step sg c' H0). lia. }
    intros n. apply G. lia.
  - intros n Hn.
    destruct n as [| n]; [lia|]. cbn [decay_run].
    destruct (Z.eq_dec (iowait_boost c) 0) as [E | E].
    + assert (Ed : boost_decay sg c = c).
      { unfold boost_decay, algov_iowait_boost. rewrite E. reflexivity. }
      rewrite Ed, decay_run_zero; assumption.
    + assert (Hp : iowait_boost_pending (boost_decay sg c) = false).
      { rewrite boost_decay_pending.
        destruct (Z.eqb_spec (iowait_boost c) 0); [contradiction|].
        reflexivity. }
      destruct (boost_decay_step sg c (proj1 Hb)) as [H1 _].
      replace n with ((n - 32) + 32)%nat by lia.
      assert (G : forall k c', iowait_boost c' = 0 ->
                    iowait_boost (decay_run sg k c') = 0)
        by (intros k c' E'; rewrite decay_run_zero; assumption).
      assert (Hsplit : forall a b c', decay_run sg (a + b) c'
                          = decay_run sg a (decay_run sg b c')).
      { intros a b. revert a. induction b as [| b IHb]; intros a c'.
        - rewrite Nat.add_0_r. reflexivity.
        - rewrite Nat.add_succ_r. cbn [decay_run]. apply IHb. }
      rewrite Hsplit. apply G. apply decay_run_halves; [exact Hp|].
      change (Z.of_nat 32) with 32. lia.
Qed.

Lemma update_single_keeps_flags K tun sg c (time flags' util_uninit : Z) :
  flag_set (flags c) (SCHED_CPUFREQ_IOWAIT K) = false ->
  iowait_boost c = 0 ->
  let c' := snd (fst (algov_update_single K tun sg c time flags'
                        util_uninit)) in
  flags c' = flags c /\ iowait_boost c' = 0
  /\ iowait_boost_pending c' = iowait_boost_pending c.
Proof.
  intros Hio H0.
  assert (E0 : algov_set_iowait_boost K tun sg c time = c).
  { unfold algov_set_iowait_boost. cbv zeta. rewrite H0. cbn [Z.eqb negb].
    rewrite Hio. destruct (iowait_boost_enable tun); reflexivity. }
  unfold algov_update_single. rewrite E0.
  set (c0 := set_last_update time c).
  assert (I0 : flags c0 = flags c /\ iowait_boost c0 = 0
               /\ iowait_boost_pending c0 = iowait_boost_pending c)
    by (repeat split; exact H0).
  destruct (work_in_progress sg); [exact I0|].
  destruct (algov_should_update_freq K sg time); cbn [negb]; [|exact I0].
  assert (I1 : let c2 := snd (algov_single_next_f K sg c0 time flags'
                                util_uninit) in
               flags c2 = flags c /\ iowait_boost c2 = 0
               /\ iowait_boost_pending c2 = iowait_boost_pending c).
  { unfold algov_single_next_f.
    assert (Hb : forall b c1, (if use_pelt K then algov_cpu_is_busy K c0
                               else (false, c0)) = (b, c1) ->
                 flags c1 = flags c /\ iowait_boost c1 = 0
                 /\ iowait_boost_pending c1 = iowait_boost_pending c).
    { intros b c1. destruct (use_pelt K); intros E; injection E as _ <-;
        exact I0. }
    destruct (if use_pelt K then algov_cpu_is_busy K c0 else (false, c0))
      as [b c1]. destruct (Hb b c1 eq_refl) as (F1 & F2 & F3).
    destruct (busy_update_boost K c1 util_uninit) as (E1 & E2 & _ & E4).
    set (c1' := algov_cpu_is_busy_update K c1 util_uninit) in *.
    destruct (flag_set flags' (SCHED_CPUFREQ_DL K)).
    { cbn [snd]. repeat split; congruence. }
    unfold algov_single_select.
    destruct (algov_get_util K time (cpu c1')) as [u1 m1].
    assert (Eb : algov_iowait_boost sg c1' u1 m1 = (c1', u1, m1)).
    { unfold algov_iowait_boost. rewrite E1, F2. reflexivity. }
    rewrite Eb. destruct (get_next_freq K sg u1 m1 b) as [f s].
    break_if; cbn [snd]; repeat split; congruence. }
  destruct (algov_single_next_f K sg c0 time flags' util_uninit)
    as [[f s] c2]. cbn [snd] in I1.
  destruct (algov_apply s time f) as [s' evs]. exact I1.
Qed.

(** X12. On a single policy the io-wait flag of an update reaches nothing: the
    hook tests its [flags] argument for the deadline bit only, so two
    updates that agree on that bit do the same. *)
Theorem update_single_ignores_iowait K tun sg c (time f1 f2 util_uninit : Z) :
  flag_set f1 (SCHED_CPUFREQ_DL K) = flag_set f2 (SCHED_CPUFREQ_DL K) ->
  algov_update_single K tun sg c time f1 util_uninit
  = algov_update_single K tun sg c time f2 util_uninit.
Proof.
  intros H. unfold algov_update_single, algov_single_next_f.
  rewrite H. reflexivity.
Qed.

(** X13. A single policy never boosts. [algov_start] leaves the deadline bit
    alone in [sg_cpu->flags] and the single hook never stores the flags
    of an update, so however many updates arrive, whatever their flags and
    the tunables, the boost of the processor stays zero and unmarked. *)
Theorem single_policy_never_boosts K0 (pol : cpufreq_policy) (n : nat) tun
  (updates : list single_update) : forall sg,
  Forall (fun u => flag_set (SCHED_CPUFREQ_DL K0)
                     (SCHED_CPUFREQ_IOWAIT (upd_env u)) = false) updates ->
  let r := single_run tun sg (algov_start_cpu K0 pol n) updates in
  iowait_boost (snd r) = 0 /\ iowait_boost_pending (snd r) = false
  /\ flags (snd r) = SCHED_CPUFREQ_DL K0.
Proof.
  assert (G : forall sg c,
    Forall (fun u => flag_set (flags c)
                       (SCHED_CPUFREQ_IOWAIT (upd_env u)) = false) updates ->
    iowait_boost c = 0 ->
    iowait_boost (snd (single_run tun sg c updates)) = 0
    /\ iowait_boost_pending (snd (single_run tun sg c updates))
       = iowait_boost_pending c
    /\ flags (snd (single_run tun sg c updates)) = flags c).
  { induction updates as [| u updates IH]; intros sg c Hf H0.
    - repeat split. exact H0.
    - inversion Hf as [| u' l Hu Hf']; subst. cbn [single_run].
      pose proof (update_single_keeps_flags (upd_env u) tun sg c
                    (upd_time u) (upd_flags u) (upd_util_uninit u) Hu H0)
        as I.
      destruct (algov_update_single (upd_env u) tun sg c (upd_time u)
                  (upd_flags u) (upd_util_uninit u)) as [[s c'] evs].
      cbn [fst snd] in I. destruct I as (I1 & I2 & I3).
      rewrite <- I1 in Hf'. destruct (IH s c' Hf' I2) as (J1 & J2 & J3).
      repeat split; congruence. }
  intros sg Hf r. destruct (G sg (algov_start_cpu K0 pol n) Hf eq_refl)
    as (J1 & J2 & J3).
  repeat split; assumption.
Qed.

End BoosterMore.

Lemma boost_ok_kept_witness :
  boost_ok (algov_set_iowait_boost example_env example_boost_tunables
              example_policy example_boosted_cpu 20000000).
Proof.
  apply (boost_ok_kept example_env example_boost_tunables example_policy
           example_boosted_cpu 20000000 0 0 0 1);
    unfold boost_ok; cbn; lia.
Defined.

Lemma boost_decays_to_zero_witness :
  iowait_boost (decay_run example_policy 33 example_boosted_cpu) = 0.
Proof.
  apply (boost_decays_to_zero example_policy example_boosted_cpu);
    [cbn; lia | lia].
Defined.

Lemma update_single_ignores_iowait_witness :
  algov_update_single example_env example_boost_tunables example_policy
    (example_cpu 0) 1000000000 4 0
  = algov_update_single example_env example_boost_tunables example_policy
      (example_cpu 0) 1000000000 0 0.
Proof.
  apply update_single_ignores_iowait. reflexivity.
Defined.

Lemma single_policy_never_boosts_witness :
  iowait_boost
    (snd (single_run example_boost_tunables example_policy (example_cpu 0)
            [ {| upd_env := example_env; upd_time := 1000000;
                 upd_flags := 4; upd_util_uninit := 0 |};
              {| upd_env := example_env; upd_time := 2000000;
                 upd_flags := 4; upd_util_uninit := 0 |} ])) = 0.
Proof.
  apply (single_policy_never_boosts example_env example_cpufreq_policy
           0%nat example_boost_tunables).
  repeat constructor.
Defined.

(** ** More on the shared path *)

Section SharedMore.

Variable K : kernel_env.
Variable sg : algov_policy.
Implicit Types (c : algov_cpu) (st : per_cpu_store) (cpus : list nat).

(** One round of the scan on a live member that carries the deadline
    flag. *)
Lemma shared_scan_deadline (p : nat) time j cpus st (u m su : Z)
  (busy : bool) :
  stale K time (st j) = false ->
  flag_set (flags (st j)) (SCHED_CPUFREQ_DL K) = true ->
  algov_shared_scan K sg p time (j :: cpus) st u m su busy
  = Scan_return (cpuinfo_max_freq (policy sg)) st.
Proof.
  intros Hs Hdl. unfold stale in Hs. simpl. rewrite Hs, Hdl. reflexivity.
Qed.

(** Whatever holds of every per-CPU object and survives the two things a
    round can do to one, holds of every object after the scan. *)
Lemma shared_scan_preserves (R : nat -> algov_cpu -> Prop) (p : nat) time
  cpus :
  (forall k c, R k c ->
     R k (set_iowait_boost_pending false (set_iowait_boost 0 c))) ->
  (forall k c, R k c -> R k (boost_decay sg (snd (algov_cpu_is_busy K c)))) ->
  forall st (u m su : Z) (busy : bool),
    (forall k, R k (st k)) ->
    forall k,
      R k (scan_store (algov_shared_scan K sg p time cpus st u m su busy) k).
Proof.
  intros Hclear Hdecay.
  induction cpus as [| j cpus IH]; intros st u m su busy Hst k.
  - apply Hst.
  - destruct (stale K time (st j)) eqn:Hs.
    + rewrite shared_scan_stale by assumption. apply IH. intros k'.
      unfold per_cpu_set. destruct (Nat.eqb_spec k' j) as [-> |];
        [apply Hclear|]; apply Hst.
    + destruct (flag_set (flags (st j)) (SCHED_CPUFREQ_DL K)) eqn:Hdl.
      * rewrite shared_scan_deadline by assumption. apply Hst.
      * rewrite shared_scan_live by assumption. apply IH. intros k'.
        unfold per_cpu_set. destruct (Nat.eqb_spec k' j) as [-> |];
          [apply Hdecay|]; apply Hst.
Qed.

Lemma shared_scan_outside (p : nat) time cpus : forall st (u m su : Z)
  (busy : bool) k,
  ~ In k cpus ->
  scan_store (algov_shared_scan K sg p time cpus st u m su busy) k = st k.
Proof.
  induction cpus as [| j cpus IH]; intros st u m su busy k Hk;
    [reflexivity|].
  assert (Hj : k <> j) by (intros ->; apply Hk; left; reflexivity).
  assert (Hk' : ~ In k cpus) by (intros H; apply Hk; right; exact H).
  destruct (stale K time (st j)) eqn:Hs.
  - rewrite shared_scan_stale by assumption. rewrite IH by assumption.
    apply per_cpu_set_other. exact Hj.
  - destruct (flag_set (flags (st j)) (SCHED_CPUFREQ_DL K)) eqn:Hdl.
    + rewrite shared_scan_deadline by assumption. reflexivity.
    + rewrite shared_scan_live by assumption. rewrite IH by assumption.
      apply per_cpu_set_other. exact Hj.
Qed.

Lemma boost_decay_report c :
  same_report c (boost_decay sg c)
  /\ previous_util (boost_decay sg c) = previous_util c
  /\ saved_idle_calls (boost_decay sg c) = saved_idle_calls c.
Proof.
  unfold same_report, boost_decay, algov_iowait_boost. cbv zeta.
  repeat break_if; repeat split.
Qed.

(** What a round leaves of a member: what it reported, and the
    utilization remembered by the classifier. *)
Lemma scan_keeps_report (p : nat) time cpus st (u m su : Z) (busy : bool) k :
  same_report (st k)
    (scan_store (algov_shared_scan K sg p time cpus st u m su busy) k)
  /\ previous_util
       (scan_store (algov_shared_scan K sg p time cpus st u m su busy) k)
     = previous_util (st k).
Proof.
  apply (shared_scan_preserves
           (fun k c => same_report (st k) c
                       /\ previous_util c = previous_util (st k))).
  - intros k' c [Hr Hp]. split; [|exact Hp].
    unfold same_report in *. cpu_fields. exact Hr.
  - intros k' c [Hr Hp].
    destruct (boost_decay_report (snd (algov_cpu_is_busy K c)))
      as (Hr' & Hp' & _).
    split; [|rewrite Hp'; exact Hp].
    unfold same_report in *. unfold algov_cpu_is_busy in *.
    cbn [snd] in *. cpu_fields. intuition congruence.
  - intros k'. split; [repeat split | reflexivity].
Qed.

Lemma scan_meets_deadline (p : nat) time cpus : forall st (u m su : Z)
  (busy : bool),
  (exists j, In j cpus /\ stale K time (st j) = false
             /\ flag_set (flags (st j)) (SCHED_CPUFREQ_DL K) = true) ->
  exists st',
    algov_shared_scan K sg p time cpus st u m su busy
    = Scan_return (cpuinfo_max_freq (policy sg)) st'.
Proof.
  induction cpus as [| h cpus IH]; intros st u m su busy (j & Hj & Hs & Hdl).
  - destruct Hj.
  - destruct (stale K time (st h)) eqn:Hsh.
    + rewrite shared_scan_stale by assumption. apply IH.
      assert (Hne : j <> h) by (intros ->; congruence).
      exists j. rewrite per_cpu_set_other by assumption.
      destruct Hj as [-> | Hj]; [contradiction|]. repeat split; assumption.
    + destruct (flag_set (flags (st h)) (SCHED_CPUFREQ_DL K)) eqn:Hdh.
      * rewrite shared_scan_deadline by assumption. exists st. reflexivity.
      * rewrite shared_scan_live by assumption. apply IH.
        assert (Hne : j <> h) by (intros ->; congruence).
        exists j. rewrite per_cpu_set_other by assumption.
        destruct Hj as [-> | Hj]; [contradiction|].
        repeat split; assumption.
Qed.

(** X14. A deadline member decides for the whole policy. When some member
    that is not stale carries the deadline flag, [algov_next_freq_shared]
    returns the maximum frequency without calling [get_next_freq], so the
    policy object and its cache are as before, and without calling
    [algov_cpu_is_busy_update]: every processor keeps what it reported and
    its [previous_util]. (The idle-entry count saved in a member scanned
    before the deadline one is still overwritten by
    [algov_cpu_is_busy].) *)
Theorem shared_deadline_member st (p : nat) time :
  (exists j, In j (policy_cpus (policy sg)) /\ stale K time (st j) = false
             /\ flag_set (flags (st j)) (SCHED_CPUFREQ_DL K) = true) ->
  let r := algov_next_freq_shared K sg st p time in
  fst (fst r) = cpuinfo_max_freq (policy sg) /\ snd (fst r) = sg
  /\ forall k, same_report (st k) (snd r k)
               /\ previous_util (snd r k) = previous_util (st k).
Proof.
  intros H r. subst r. unfold algov_next_freq_shared.
  pose proof (scan_keeps_report p time (policy_cpus (policy sg)) st 0 1 0
                false) as Hk.
  destruct (scan_meets_deadline p time (policy_cpus (policy sg)) st 0 1 0
              false H) as (st' & E).
  rewrite E in *. cbn [fst snd scan_store] in *.
  split; [reflexivity|]. split; [reflexivity|].
  intros k. apply Hk.
Qed.

End SharedMore.

Section SharedUpdate.

Variable K : kernel_env.
Implicit Types (sg : algov_policy) (st : per_cpu_store)
  (tun : algov_tunables).

Lemma next_freq_shared_report sg st (p : nat) time k :
  same_report (st k) (snd (algov_next_freq_shared K sg st p time) k)
  /\ (k <> p ->
      previous_util (snd (algov_next_freq_shared K sg st p time) k)
      = previous_util (st k))
  /\ (k <> p -> ~ In k (policy_cpus (policy sg)) ->
      snd (algov_next_freq_shared K sg st p time) k = st k).
Proof.
  unfold algov_next_freq_shared.
  pose proof (scan_keeps_report K sg p time (policy_cpus (policy sg)) st
                0 1 0 false k) as [Hr Hp].
  pose proof (shared_scan_outside K sg p time (policy_cpus (policy sg)) st
                0 1 0 false k) as Ho.
  destruct (algov_shared_scan K sg p time (policy_cpus (policy sg)) st
              0 1 0 false) as [f st' | u m su busy st'];
    cbn [scan_store] in *.
  - cbn [snd]. split; [exact Hr|]. split; [intros _; exact Hp|].
    intros _ Hk. apply Ho. exact Hk.
  - destruct (get_next_freq K sg u m busy) as [f s]. cbn [snd].
    unfold per_cpu_set. destruct (Nat.eqb_spec k p) as [-> | Hne].
    + split; [|split; intros Hc; contradiction].
      unfold same_report in *. unfold algov_cpu_is_busy_update. cbv zeta.
      break_if; cpu_fields; exact Hr.
    + split; [exact Hr|]. split; [intros _; exact Hp|].
      intros _ Hk. apply Ho. exact Hk.
Qed.

(** X15. What an update on a shared policy writes. The processor it comes from
    gets the utilization and capacity of [algov_get_util], the first no
    greater than the second, the flags of the update and its time. Of any
    other processor the update leaves what was reported and what the
    classifier remembers of its utilization, and a processor outside the
    policy is not touched at all. *)
Theorem update_shared_frame tun sg st (p : nat) (time flags' : Z) :
  let st' := snd (fst (algov_update_shared K tun sg st p time flags')) in
  let um := algov_get_util K time (cpu (st p)) in
  util (st' p) = fst um /\ max (st' p) = snd um
  /\ util (st' p) <= max (st' p)
  /\ flags (st' p) = flags' /\ last_update (st' p) = time
  /\ cpu (st' p) = cpu (st p)
  /\ iowait_boost_max (st' p) = iowait_boost_max (st p)
  /\ (forall k, k <> p ->
        same_report (st k) (st' k)
        /\ previous_util (st' k) = previous_util (st k))
  /\ (forall k, k <> p -> ~ In k (policy_cpus (policy sg)) -> st' k = st k).
Proof.
  intros st' um.
  assert (Hle : fst um <= snd um).
  { subst um. unfold algov_get_util. cbn [fst snd]. apply Z.le_min_r. }
  subst st'. unfold algov_update_shared. fold um.
  destruct um as [u m] eqn:Eum. cbn [fst snd] in Hle |- *.
  set (cp := set_last_update time
               (algov_set_iowait_boost K tun sg
                  (set_flags flags' (set_max m (set_util u (st p)))) time)).
  set (st1 := per_cpu_set st p cp).
  assert (Hcp : util cp = u /\ max cp = m /\ flags cp = flags'
                /\ last_update cp = time /\ cpu cp = cpu (st p)
                /\ iowait_boost_max cp = iowait_boost_max (st p)).
  { pose proof (set_iowait_boost_frame K tun sg
                  (set_flags flags' (set_max m (set_util u (st p)))) time)
      as F. cbv zeta in F. subst cp. cpu_fields. intuition. }
  assert (H1 : forall k, k <> p -> st1 k = st k)
    by (intros k Hk; apply per_cpu_set_other; exact Hk).
  assert (Hp1 : st1 p = cp) by apply per_cpu_set_same.
  assert (G : forall st2,
    (forall k, same_report (st1 k) (st2 k)
               /\ (k <> p -> previous_util (st2 k) = previous_util (st1 k))
               /\ (k <> p -> ~ In k (policy_cpus (policy sg)) ->
                   st2 k = st1 k)) ->
    util (st2 p) = u /\ max (st2 p) = m /\ util (st2 p) <= max (st2 p)
    /\ flags (st2 p) = flags' /\ last_update (st2 p) = time
    /\ cpu (st2 p) = cpu (st p)
    /\ iowait_boost_max (st2 p) = iowait_boost_max (st p)
    /\ (forall k, k <> p ->
          same_report (st k) (st2 k)
          /\ previous_util (st2 k) = previous_util (st k))
    /\ (forall k, k <> p -> ~ In k (policy_cpus (policy sg)) ->
          st2 k = st k)).
  { intros st2 H2.
    destruct (H2 p) as ((R1 & R2 & R3 & R4 & R5 & R6) & _).
    rewrite Hp1 in R1, R2, R3, R4, R5, R6.
    destruct Hcp as (C1 & C2 & C3 & C4 & C5 & C6).
    split; [congruence|]. split; [congruence|]. split; [rewrite R1, R2; lia|].
    split; [congruence|]. split; [congruence|]. split; [congruence|].
    split; [congruence|]. split.
    - intros k Hk. destruct (H2 k) as (Q1 & Q2 & _).
      rewrite (H1 k Hk) in Q1, Q2. split; [exact Q1 | apply Q2; exact Hk].
    - intros k Hk Hout. destruct (H2 k) as (_ & _ & Q3).
      rewrite (Q3 Hk Hout). apply H1. exact Hk. }
  assert (Hid : forall k, same_report (st1 k) (st1 k)
                /\ (k <> p -> previous_util (st1 k) = previous_util (st1 k))
                /\ (k <> p -> ~ In k (policy_cpus (policy sg)) ->
                    st1 k = st1 k))
    by (intros k; repeat split).
  destruct (algov_should_update_freq K sg time); [|apply G, Hid].
  destruct (flag_set flags' (SCHED_CPUFREQ_DL K)).
  - destruct (algov_apply sg time (cpuinfo_max_freq (policy sg)))
      as [s' evs]. apply G, Hid.
  - pose proof (next_freq_shared_report sg st1 p time) as Hn.
    destruct (algov_next_freq_shared K sg st1 p time) as [[f s] st2].
    cbn [snd] in Hn. destruct (algov_apply s time f) as [s' evs].
    cbn [fst snd]. apply G. exact Hn.
Qed.

End SharedUpdate.

Lemma shared_deadline_member_witness :
  fst (fst (algov_next_freq_shared example_env example_policy example_store
              0 1000)) = cpuinfo_max_freq (policy example_policy).
Proof.
  apply (shared_deadline_member example_env example_policy example_store
           0%nat 1000).
  exists 0%nat. split; [left; reflexivity|]. split; reflexivity.
Defined.

(** ** The classifier, the cache at zero, the range of [next_freq] *)

Section Range.

Variable K : kernel_env.
Implicit Types (sg s : algov_policy) (c : algov_cpu) (tun : algov_tunables).

(** X16. The classifier right after its update. On the processor the update
    runs on, with its idle-entry count not moved since, the processor
    counts as busy exactly when its utilization went up: the decrement of
    the saved count makes the next test fail when it did not. *)
Theorem busy_after_update c (u : Z) :
  0 <= tick_nohz_get_idle_calls K < 2 ^ 64 ->
  tick_nohz_get_idle_calls_cpu K (cpu c) = tick_nohz_get_idle_calls K ->
  fst (algov_cpu_is_busy K (algov_cpu_is_busy_update K c u))
  = negb (u <=? previous_util c)
  /\ previous_util (algov_cpu_is_busy_update K c u) = u.
Proof.
  intros Hr He. unfold algov_cpu_is_busy, algov_cpu_is_busy_update.
  cbv zeta. rewrite He. cpu_fields.
  destruct (u <=? previous_util c); cpu_fields; cbn [fst negb].
  - split; [|reflexivity]. apply Z.eqb_neq. unfold u64.
    destruct (Z.eq_dec (tick_nohz_get_idle_calls K) 0) as [E | E].
    + rewrite E. intros H. vm_compute in H. discriminate.
    + rewrite Z.mod_small; lia.
  - split; [apply Z.eqb_refl | reflexivity].
Qed.

(** X17. Zero utilization meets the cache at its reset value. The raw
    frequency of utilization zero is zero, which is also what a rate-limit
    rejection and the start leave in the cache; so, with no refresh forced,
    [get_next_freq] then returns [next_freq] without resolving anything and
    nothing is requested. *)
Theorem zero_util_short_circuit sg (m : Z) (busy : bool) :
  cached_raw_freq sg = 0 -> need_freq_update sg = false ->
  raw_freq K sg 0 m busy = 0
  /\ get_next_freq K sg 0 m busy = (next_freq sg, sg)
  /\ forall t, algov_apply sg t (next_freq sg) = (sg, []).
Proof.
  intros Hc Hn.
  assert (Er : raw_freq K sg 0 m busy = 0).
  { unfold raw_freq. cbv zeta. rewrite Z.mul_0_r. reflexivity. }
  split; [exact Er|]. split; [|intros t; apply apply_equal].
  apply get_next_freq_hit; [rewrite Er, Hc; reflexivity | exact Hn].
Qed.

Lemma update_next_freq_range sg (t f lo hi : Z) :
  0 <= lo -> hi < 2 ^ 31 ->
  lo <= next_freq sg <= hi -> lo <= f <= hi ->
  lo <= next_freq (snd (algov_update_next_freq sg t f)) <= hi.
Proof.
  intros Hlo Hhi Hn Hf. unfold algov_update_next_freq.
  destruct (algov_up_down_rate_limit sg t f); [exact Hn|].
  destruct (next_freq sg =? f); [exact Hn|].
  cbn [snd next_freq set_next_freq set_last_freq_update_time].
  destruct (Z.gtb_spec (next_freq sg) f); [|exact Hf].
  rewrite shiftr_1_half.
  assert (E : 2 ^ 31 + 2 ^ 31 = 2 ^ 32) by reflexivity.
  rewrite u32_small by lia.
  assert (f <= (next_freq sg + f) / 2 < next_freq sg).
  { split; [apply Z.div_le_lower_bound | apply Z.div_lt_upper_bound]; lia. }
  lia.
Qed.

Lemma apply_range sg (t f lo hi : Z) :
  0 <= lo -> hi < 2 ^ 31 ->
  lo <= next_freq sg <= hi -> lo <= f <= hi ->
  lo <= next_freq (fst (algov_apply sg t f)) <= hi.
Proof.
  intros Hlo Hhi Hn Hf.
  pose proof (update_next_freq_range sg t f lo hi Hlo Hhi Hn Hf) as H.
  unfold algov_apply, algov_fast_switch, algov_deferred_update.
  destruct (algov_update_next_freq sg t f) as [a s]. cbn [snd] in H.
  destruct (fast_switch_enabled (policy sg)); destruct a; cbn [negb fst];
    try exact H.
  destruct (work_in_progress s); exact H.
Qed.

Lemma get_next_freq_range sg (u m lo hi : Z) (busy : bool) :
  (forall f, lo <= cpufreq_driver_resolve_freq K (policy sg) f <= hi) ->
  lo <= next_freq sg <= hi ->
  lo <= fst (get_next_freq K sg u m busy) <= hi.
Proof.
  intros Hres Hn. unfold get_next_freq. cbv zeta.
  break_if; cbn [fst]; [exact Hn | apply Hres].
Qed.

Lemma scan_return_freq sg (p : nat) (time : Z) (cpus : list nat) :
  forall (st : per_cpu_store) (u m su : Z) (busy : bool) f st',
    algov_shared_scan K sg p time cpus st u m su busy = Scan_return f st' ->
    f = cpuinfo_max_freq (policy sg).
Proof.
  induction cpus as [| j cpus IH]; intros st u m su busy f st' E.
  - discriminate.
  - destruct (stale K time (st j)) eqn:Hs.
    + rewrite shared_scan_stale in E by assumption. apply (IH _ _ _ _ _ _ _ E).
    + destruct (flag_set (flags (st j)) (SCHED_CPUFREQ_DL K)) eqn:Hdl.
      * rewrite shared_scan_deadline in E by assumption.
        injection E as <- _. reflexivity.
      * rewrite shared_scan_live in E by assumption.
        apply (IH _ _ _ _ _ _ _ E).
Qed.

(** X18. [next_freq] stays in range. Between bounds below 2^31 that hold the
    maximum frequency of the hardware and whatever the driver resolves,
    [next_freq] is still there after any update, single or shared. *)
Theorem next_freq_in_range tun sg c (st : per_cpu_store) (p : nat)
  (time flags' util_uninit lo hi : Z) :
  0 <= lo -> hi < 2 ^ 31 ->
  (forall f, lo <= cpufreq_driver_resolve_freq K (policy sg) f <= hi) ->
  lo <= cpuinfo_max_freq (policy sg) <= hi ->
  lo <= next_freq sg <= hi ->
  lo <= next_freq (fst (fst (algov_update_single K tun sg c time flags'
                               util_uninit))) <= hi
  /\ lo <= next_freq (fst (fst (algov_update_shared K tun sg st p time
                                  flags'))) <= hi.
Proof.
  intros Hlo Hhi Hres Hmax Hn. split.
  - unfold algov_update_single.
    destruct (work_in_progress sg); [exact Hn|].
    destruct (algov_should_update_freq K sg time); cbn [negb]; [|exact Hn].
    set (c0 := set_last_update time (algov_set_iowait_boost K tun sg c time)).
    assert (H : let r := fst (algov_single_next_f K sg c0 time flags'
                                util_uninit) in
                lo <= fst r <= hi /\ lo <= next_freq (snd r) <= hi).
    { unfold algov_single_next_f.
      destruct (if use_pelt K then algov_cpu_is_busy K c0 else (false, c0))
        as [b c1].
      destruct (flag_set flags' (SCHED_CPUFREQ_DL K));
        [split; assumption|].
      unfold algov_single_select.
      destruct (algov_get_util K time
                  (cpu (algov_cpu_is_busy_update K c1 util_uninit)))
        as [u m].
      destruct (algov_iowait_boost sg
                  (algov_cpu_is_busy_update K c1 util_uninit) u m)
        as [[c2 u2] m2].
      pose proof (get_next_freq_range sg u2 m2 lo hi b Hres Hn) as Hf.
      pose proof (get_next_freq_frame K sg u2 m2 b) as F. cbv zeta in F.
      destruct (get_next_freq K sg u2 m2 b) as [f s]. cbn [fst snd] in *.
      destruct F as (_ & _ & En & _).
      break_if; cbn [fst snd next_freq set_cached_raw_freq]; rewrite ?En;
        split; assumption. }
    destruct (algov_single_next_f K sg c0 time flags' util_uninit)
      as [[f s] c2]. cbn [fst snd] in H. destruct H as [Hf Hs].
    pose proof (apply_range s time f lo hi Hlo Hhi Hs Hf) as Ha.
    destruct (algov_apply s time f) as [s' evs]. exact Ha.
  - unfold algov_update_shared.
    destruct (algov_get_util K time (cpu (st p))) as [u m].
    destruct (algov_should_update_freq K sg time); [|exact Hn].
    destruct (flag_set flags' (SCHED_CPUFREQ_DL K)).
    + pose proof (apply_range sg time (cpuinfo_max_freq (policy sg)) lo hi
                    Hlo Hhi Hn Hmax) as Ha.
      destruct (algov_apply sg time (cpuinfo_max_freq (policy sg)))
        as [s' evs]. exact Ha.
    + match goal with
      | |- context [algov_next_freq_shared K sg ?st1 p time] =>
        assert (H : let r := fst (algov_next_freq_shared K sg st1 p time) in
                    lo <= fst r <= hi /\ lo <= next_freq (snd r) <= hi);
        [|destruct (algov_next_freq_shared K sg st1 p time) as [[f s] st2]]
      end.
      { unfold algov_next_freq_shared.
        match goal with
        | |- context [algov_shared_scan K sg p time ?l ?s0 0 1 0 false] =>
          pose proof (scan_return_freq sg p time l s0 0 1 0 false) as Hret;
          destruct (algov_shared_scan K sg p time l s0 0 1 0 false)
            as [f st' | u' m' su busy st']
        end.
        { rewrite (Hret f st' eq_refl). split; assumption. }
        pose proof (get_next_freq_range sg u' m' lo hi busy Hres Hn) as Hf.
        pose proof (get_next_freq_frame K sg u' m' busy) as F.
        cbv zeta in F.
        destruct (get_next_freq K sg u' m' busy) as [f s].
        cbn [fst snd] in *. destruct F as (_ & _ & En & _).
        rewrite En. split; assumption. }
      cbn [fst snd] in H. destruct H as [Hf Hs].
      pose proof (apply_range s time f lo hi Hlo Hhi Hs Hf) as Ha.
      destruct (algov_apply s time f) as [s' evs]. exact Ha.
Qed.

End Range.

Lemma busy_after_update_witness :
  fst (algov_cpu_is_busy example_env
         (algov_cpu_is_busy_update example_env example_busy_cpu 0)) = false.
Proof.
  apply (busy_after_update example_env example_busy_cpu 0);
    [cbn; lia | reflexivity].
Defined.

Lemma zero_util_short_circuit_witness :
  get_next_freq example_env example_policy 0 1024 true
  = (next_freq example_policy, example_policy).
Proof.
  apply (zero_util_short_circuit example_env example_policy 1024 true);
    reflexivity.
Defined.

Lemma next_freq_in_range_witness :
  0 <= next_freq (fst (fst (algov_update_single example_env example_tunables
                              example_policy (example_cpu 0) 1000000000 0 0)))
    <= 1800000.
Proof.
  apply (next_freq_in_range example_env example_tunables example_policy
           (example_cpu 0) example_store 0%nat 1000000000 0 0 0 1800000);
    cbn; lia.
Defined.

Lemma update_shared_frame_witness :
  let st' := snd (fst (algov_update_shared example_env example_tunables
                         example_policy example_shared_store 0 1000000000
                         0)) in
  util (st' 1%nat) = 50 /\ last_update (st' 0%nat) = 1000000000.
Proof.
  pose proof (update_shared_frame example_env example_tunables example_policy
                example_shared_store 0%nat 1000000000 0)
    as (_ & _ & _ & _ & Ht & _ & _ & Hk & _).
  cbv zeta in *. split; [|exact Ht].
  destruct (Hk 1%nat ltac:(discriminate)) as [(Eu & _) _]. rewrite Eu.
  reflexivity.
Defined.
